(** * Polarion test records: a shallow embedding of [polarion/record.py]

    The class [Record] keeps a local projection of one remote test record.
    Its attributes live in the instance dictionary ([self.__dict__]), which
    the build step fills by [setattr] from the payload the service returned.
    The embedding keeps that dictionary as a finite map from attribute names
    to Python values, threads it through a state-and-exception monad, and
    records every call to a collaborator (the SOAP service, the HTTP client,
    the file system) in a trace, together with the answer it got.

    Method calls on the record ([self.save()] and the like) and the lookup
    of the class attribute [self.ResultType] go through the instance
    dictionary first, as in Python: an attribute of that name, which the
    build step creates when the payload carries such a field, hides the
    method.  [setattr] on the record treats the three names the class keeps
    for itself ([__class__], [__dict__], [__weakref__]) as Python does.

    Python objects are modelled by value, each attribute holding a value of
    its own.  The two places where the source mutates an object it reached
    through the record (the result holder in [setResult], a step-result slot
    in [setTestStepResult]) store the changed object back along the path it
    was reached by.  The payload kept under [_polarion_record] shares those
    objects in Python, so after such a write its copy in the model is out of
    date.  No method reads the payload before [_reloadFromPolarion] has
    replaced it, so outcomes, calls and the other attributes are not
    affected; the statements about [setResult] and [setTestStepResult] below
    are about those, and none of them describes [_polarion_record] or the
    instance dictionary as a whole after such a write. *)

From Stdlib Require Import ZArith String Ascii List Lia.
From stdpp Require Import gmap strings list fin_maps.

Set Warnings "-register-all".

Local Open Scope string_scope.
Local Open Scope Z_scope.
Local Open Scope list_scope.

(** ** Python values *)

(** The two kinds of objects the record meets: plain instances, whose
    [__dict__] holds their attributes, and zeep compound values (everything
    the service returns or the type factories build), whose [__dict__] holds
    the single entry [__values__], the ordered mapping of their fields, and
    whose attribute access reads and writes that mapping. *)
Inductive objclass := Plain | Compound.

Inductive value :=
| VNone
| VBool (b : bool)
| VInt (n : Z)
| VStr (s : string)
| VBytes (s : string)
| VList (l : list value)
| VDict (m : list (string * value))
| VObj (c : objclass) (fields : list (string * value)).

(** Python exceptions.  [PyException] is the base class [Exception] the
    record raises itself; [ExternalError] stands for whatever a collaborator
    raises (a SOAP fault, a connection error, a missing file). *)
Inductive exn :=
| AttributeError (name : string)
| TypeError
| IndexError
| KeyError
| ValueError
| PyException (msg : string)
| ExternalError (msg : string).

Inductive outcome (A : Type) :=
| Return (a : A)
| Raise (e : exn).
Arguments Return {A} a.
Arguments Raise {A} e.

Definition obind {A B} (o : outcome A) (k : A -> outcome B) : outcome B :=
  match o with
  | Return a => k a
  | Raise e => Raise e
  end.

(** *** Ordered mappings *)

Fixpoint assoc (k : string) (m : list (string * value)) : option value :=
  match m with
  | [] => None
  | (k', v) :: m' => if String.eqb k' k then Some v else assoc k m'
  end.

(** [m[k] = v]: overwrite the binding of [k], or add one at the end. *)
Fixpoint assoc_set (k : string) (v : value) (m : list (string * value))
  : list (string * value) :=
  match m with
  | [] => [(k, v)]
  | (k', v') :: m' =>
      if String.eqb k' k then (k, v) :: m' else (k', v') :: assoc_set k v m'
  end.

(** The keys of a mapping, each once, in order of first appearance. *)
Fixpoint keys (m : list (string * value)) : list string :=
  match m with
  | [] => []
  | (k, _) :: m' => k :: List.filter (fun k' => negb (String.eqb k k')) (keys m')
  end.

(** *** Attribute access on values *)

Definition is_None (v : value) : bool :=
  match v with
  | VNone => true
  | _ => false
  end.

(** [v.name] for the data attributes the record reads. *)
Definition getattr (v : value) (name : string) : outcome value :=
  match v with
  | VObj _ fields =>
      match assoc name fields with
      | Some x => Return x
      | None => Raise (AttributeError name)
      end
  | _ => Raise (AttributeError name)
  end.

(** [v.name = x]; the object is returned with the attribute set. *)
Definition setattr (v : value) (name : string) (x : value) : outcome value :=
  match v with
  | VObj c fields => Return (VObj c (assoc_set name x fields))
  | _ => Raise (AttributeError name)
  end.

(** [v.__dict__.items()] *)
Definition obj_dict (v : value) : outcome (list (string * value)) :=
  match v with
  | VObj Plain fields => Return fields
  | VObj Compound fields => Return [("__values__", VDict fields)]
  | _ => Raise (AttributeError "__dict__")
  end.

(** *** Sequences: [len], indexing, iteration *)

Fixpoint chars (s : string) : list string :=
  match s with
  | EmptyString => []
  | String c s' => String c EmptyString :: chars s'
  end.

Fixpoint codes (s : string) : list value :=
  match s with
  | EmptyString => []
  | String c s' => VInt (Z.of_N (N_of_ascii c)) :: codes s'
  end.

Definition len (v : value) : outcome Z :=
  match v with
  | VList l => Return (Z.of_nat (List.length l))
  | VStr s | VBytes s => Return (Z.of_nat (String.length s))
  | VDict m => Return (Z.of_nat (List.length (keys m)))
  | VObj Compound fields => Return (Z.of_nat (List.length (keys fields)))
  | _ => Raise TypeError
  end.

(** Python's index normalisation: [-n <= i < n], negative indices counting
    from the end. *)
Definition py_index (i : Z) (n : nat) : option nat :=
  if (0 <=? i) && (i <? Z.of_nat n) then Some (Z.to_nat i)
  else if (- Z.of_nat n <=? i) && (i <? 0) then Some (Z.to_nat (Z.of_nat n + i))
  else None.

Definition seq_getitem {A} (l : list A) (i : Z) : outcome A :=
  match py_index i (List.length l) with
  | Some j =>
      match nth_error l j with
      | Some x => Return x
      | None => Raise IndexError
      end
  | None => Raise IndexError
  end.

(** [l[i] = x] *)
Definition seq_setitem {A} (l : list A) (i : Z) (x : A) : outcome (list A) :=
  match py_index i (List.length l) with
  | Some j => Return (<[j:=x]> l)
  | None => Raise IndexError
  end.

Definition as_index (k : value) : option Z :=
  match k with
  | VInt i => Some i
  | VBool b => Some (if b then 1 else 0)
  | _ => None
  end.

Definition mapping_getitem (m : list (string * value)) (k : value) : outcome value :=
  match k with
  | VStr s =>
      match assoc s m with
      | Some x => Return x
      | None => Raise KeyError
      end
  | VList _ | VDict _ => Raise TypeError
  | _ => Raise KeyError
  end.

(** [v[k]] *)
Definition getitem (v k : value) : outcome value :=
  match v with
  | VDict m => mapping_getitem m k
  | VObj Compound fields => mapping_getitem fields k
  | VList l =>
      match as_index k with
      | Some i => seq_getitem l i
      | None => Raise TypeError
      end
  | VStr s =>
      match as_index k with
      | Some i => obind (seq_getitem (chars s) i) (fun c => Return (VStr c))
      | None => Raise TypeError
      end
  | VBytes s =>
      match as_index k with
      | Some i => seq_getitem (codes s) i
      | None => Raise TypeError
      end
  | _ => Raise TypeError
  end.

(** What [for key in v] yields. *)
Definition iter (v : value) : outcome (list value) :=
  match v with
  | VDict m => Return (map VStr (keys m))
  | VObj Compound fields => Return (map VStr (keys fields))
  | VList l => Return l
  | VStr s => Return (map VStr (chars s))
  | VBytes s => Return (codes s)
  | _ => Raise TypeError
  end.

(** *** Strings *)

(** [s.split(sep)] for a separator of one character. *)
Fixpoint split (sep : ascii) (s : string) : list string :=
  match s with
  | EmptyString => [EmptyString]
  | String c s' =>
      if Ascii.eqb c sep then EmptyString :: split sep s'
      else match split sep s' with
           | [] => [String c EmptyString]
           | h :: t => String c h :: t
           end
  end.

(** [v.split('}')] on an arbitrary value: only [str] has a [split] that
    takes a [str]; [bytes.split] rejects it, an object attribute of that
    name is data and cannot be called. *)
Definition method_split (v : value) (sep : ascii) : outcome (list string) :=
  match v with
  | VStr s => Return (split sep s)
  | VBytes _ => Raise TypeError
  | VObj _ fields =>
      match assoc "split" fields with
      | Some _ => Raise TypeError
      | None => Raise (AttributeError "split")
      end
  | _ => Raise (AttributeError "split")
  end.

(** [attr.startswith('_')] *)
Definition startswith (attr pre : string) : bool := String.prefix pre attr.

(** [os.path.split(p)[1]]: what follows the last slash. *)
Definition path_tail (p : string) : string := List.last (split "/" p) EmptyString.

(** ** The result enumeration *)

Inductive ResultType := No | PASSED | FAILED | BLOCKED.

(** [result.value] *)
Definition ResultType_value (r : ResultType) : value :=
  match r with
  | No => VNone
  | PASSED => VStr "passed"
  | FAILED => VStr "failed"
  | BLOCKED => VStr "blocked"
  end.

(** [ResultType(v)]: the member whose value is [v]. *)
Definition ResultType_call (v : value) : outcome ResultType :=
  match v with
  | VNone => Return No
  | VStr s =>
      if String.eqb s "passed" then Return PASSED
      else if String.eqb s "failed" then Return FAILED
      else if String.eqb s "blocked" then Return BLOCKED
      else Raise ValueError
  | _ => Raise ValueError
  end.

(** ** Collaborators, state and the monad *)

(** The calls the record makes to the outside: the Polarion client and its
    TestManagement service, [requests.get], and the local file system. *)
Inductive call :=
| getService (polarion : value) (name : string)
| getTestCaseRecords (service uri testcase : value)
| executeTest (service uri : value) (new_item : gmap string value)
| getTestSteps (service testCaseURI : value)
| deleteAttachmentFromTestRecord (service uri index : value) (file_name : string)
| addAttachmentToTestRecord (service uri index : value) (file_name title : string)
    (content : value)
| requests_get (url : value) (auth : value * value)
| open_ (file_path mode : string)
| file_read (file : value)
| file_write (file data : value)
| file_close (file : value).

Definition event : Type := call * outcome value.

(** The outside world answers a call given everything that happened before:
    any deterministic service, stateful or not, is such a function. *)
Definition oracle : Type := list event -> call -> outcome value.

Record state := mkState {
  self : gmap string value;   (* [self.__dict__] *)
  trace : list event;         (* calls made so far, with their answers *)
  world : oracle
}.

(** A method body: it runs on a state and returns or raises, leaving the
    state as it was at that moment. *)
Definition M (A : Type) : Type := state -> outcome A * state.

Definition ret {A} (a : A) : M A := fun st => (Return a, st).

Definition raise {A} (e : exn) : M A := fun st => (Raise e, st).

Definition bind {A B} (m : M A) (k : A -> M B) : M B :=
  fun st =>
    match m st with
    | (Return a, st') => k a st'
    | (Raise e, st') => (Raise e, st')
    end.

Notation "x <~ m ;; k" := (bind m (fun x => k))
  (at level 100, m at next level, right associativity).
Notation "m ;;; k" := (bind m (fun _ => k))
  (at level 100, right associativity).

Definition lift {A} (o : outcome A) : M A := fun st => (o, st).

(** [self.name] *)
Definition self_get (name : string) : M value :=
  fun st =>
    match self st !! name with
    | Some v => (Return v, st)
    | None => (Raise (AttributeError name), st)
    end.

(** [self.name = v] *)
Definition self_set (name : string) (v : value) : M unit :=
  fun st => (Return tt, mkState (<[name:=v]> (self st)) (trace st) (world st)).

(** [setattr(self, key, v)]: attribute names are strings.  Three names are
    data descriptors of the class and never reach the instance dictionary
    as keys: [__class__] takes classes only, which no value here is;
    [__weakref__] cannot be written; [__dict__] takes a dictionary, which
    becomes the instance dictionary. *)
Definition self_setattr (key v : value) : M unit :=
  match key with
  | VStr name =>
      if String.eqb name "__class__" then raise TypeError
      else if String.eqb name "__weakref__" then raise (AttributeError "__weakref__")
      else if String.eqb name "__dict__" then
        match v with
        | VDict m => fun st => (Return tt, mkState (list_to_map m) (trace st) (world st))
        | _ => raise TypeError
        end
      else self_set name v
  | _ => raise TypeError
  end.

(** [self.name(...)] for a method [name] of the class: the instance
    dictionary is searched first, and what it holds is data, which cannot be
    called. *)
Definition invoke {A} (name : string) (method : M A) : M A :=
  fun st =>
    match self st !! name with
    | Some _ => (Raise TypeError, st)
    | None => method st
    end.

(** A call to a collaborator: the world answers, the trace grows. *)
Definition perform (c : call) : M value :=
  fun st =>
    let r := world st (trace st) c in
    (r, mkState (self st) (trace st ++ [(c, r)]) (world st)).

(** [for x in l: body(x)] *)
Fixpoint for_each {A} (l : list A) (body : A -> M unit) : M unit :=
  match l with
  | [] => ret tt
  | x :: l' => body x ;;; for_each l' body
  end.

(** [with open(...) as f: body(f)]: the file is closed on every exit. *)
Definition with_open {A} (file_path mode : string) (body : value -> M A) : M A :=
  f <~ perform (open_ file_path mode) ;;
  fun st =>
    match body f st with
    | (Return a, st') => (_ <~ perform (file_close f) ;; ret a) st'
    | (Raise e, st') => (_ <~ perform (file_close f) ;; raise e) st'
    end.

(** ** The type factories of the client *)

(** Modelled from the spec: [polarion.EnumOptionIdType], [polarion.TextType],
    [polarion.ArrayOfTestStepResultType] and [polarion.TestStepResultType]
    are type factories of the Polarion client, which is not part of
    [record.py].  The result holder carries an id; rich content carries its
    content, its type and the lossy flag; the step-result collection starts
    empty; an empty step-result slot has neither result nor comment. *)
Definition EnumOptionIdType (id : value) : value :=
  VObj Compound [("id", id)].

Definition TextType (content : value) (type : string) (contentLossy : bool) : value :=
  VObj Compound [("content", content); ("type", VStr type);
                 ("contentLossy", VBool contentLossy)].

Definition ArrayOfTestStepResultType : value :=
  VObj Compound [("TestStepResult", VList [])].

Definition TestStepResultType : value :=
  VObj Compound [("comment", VNone); ("result", VNone)].

(** [self._polarion.Factory(...)]: the client is looked up first. *)
Definition polarion_make (v : value) : M value :=
  _ <~ self_get "_polarion" ;; ret v.

(** ** The methods of [Record] *)

(** [_buildWorkitemFromPolarion]: every key of every sub-mapping of the
    payload becomes an attribute of the record ([project_mapping] is the
    inner loop, [for key in value: setattr(self, key, value[key])]), then
    the testcase reference, the testcase name and the defect reference are
    derived ([derive_references] is the three assignments that follow the
    loops). *)
Definition project_mapping (value : value) : M unit :=
  ks <~ lift (iter value) ;;
  for_each ks (fun key =>
    v <~ lift (getitem value key) ;;
    self_setattr key v).

Definition derive_references : M unit :=
  polarion_record <~ self_get "_polarion_record" ;;
  testCaseURI <~ lift (getattr polarion_record "testCaseURI") ;;
  self_set "_testcase" testCaseURI ;;;
  testcase <~ self_get "_testcase" ;;
  parts <~ lift (method_split testcase "}") ;;
  name <~ lift (seq_getitem parts 1) ;;
  self_set "_testcase_name" (VStr name) ;;;
  polarion_record <~ self_get "_polarion_record" ;;
  defectURI <~ lift (getattr polarion_record "defectURI") ;;
  self_set "_defect" defectURI.

Definition _buildWorkitemFromPolarion : M unit :=
  polarion_record <~ self_get "_polarion_record" ;;
  items <~ lift (obj_dict polarion_record) ;;
  for_each items (fun '(attr, value) => project_mapping value) ;;;
  derive_references.

Definition __init__ (polarion test_run polarion_record index : value) : M unit :=
  self_set "_polarion" polarion ;;;
  self_set "_test_run" test_run ;;;
  self_set "_polarion_record" polarion_record ;;;
  self_set "_index" index ;;;
  invoke "_buildWorkitemFromPolarion" _buildWorkitemFromPolarion.

(** The state a constructor call starts from: no attribute yet. *)
Definition new_state (w : oracle) : state := mkState ∅ [] w.

Definition _reloadFromPolarion : M unit :=
  polarion <~ self_get "_polarion" ;;
  service <~ perform (getService polarion "TestManagement") ;;
  test_run <~ self_get "_test_run" ;;
  uri <~ lift (getattr test_run "uri") ;;
  testcase <~ self_get "_testcase" ;;
  records <~ perform (getTestCaseRecords service uri testcase) ;;
  record <~ lift (getitem records (VInt 0)) ;;
  self_set "_polarion_record" record ;;;
  invoke "_buildWorkitemFromPolarion" _buildWorkitemFromPolarion.

(** The attributes [save] keeps: those whose name does not start with an
    underscore. *)
Definition public_items (d : gmap string value) : gmap string value :=
  filter (fun kv => startswith kv.1 "_" <> true) d.

Definition save : M unit :=
  new_item <~ (fun st => (Return (public_items (self st)), st)) ;;
  polarion <~ self_get "_polarion" ;;
  service <~ perform (getService polarion "TestManagement") ;;
  test_run <~ self_get "_test_run" ;;
  uri <~ lift (getattr test_run "uri") ;;
  perform (executeTest service uri new_item) ;;;
  invoke "_reloadFromPolarion" _reloadFromPolarion.

(** [self.testStepResults.TestStepResult.append(slot)]; the list is shared
    with the collection the record holds, so the grown list is stored back
    through both. *)
Definition append_slot : M unit :=
  results <~ self_get "testStepResults" ;;
  slots <~ lift (getattr results "TestStepResult") ;;
  l <~ lift (match slots with
             | VList l => Return l
             | _ => Raise (AttributeError "append")
             end) ;;
  slot <~ polarion_make TestStepResultType ;;
  results' <~ lift (setattr results "TestStepResult" (VList (l ++ [slot]))) ;;
  self_set "testStepResults" results'.

(** [self.testStepResults.TestStepResult[step_number].name = v]; the slot is
    mutated in place, which here means storing it back into the list, the
    list into the collection and the collection into the record.  (The copy
    of the collection inside the payload under [_polarion_record] is left as
    it was: see the head of the file.) *)
Definition slot_setattr (step_number : Z) (name : string) (v : value) : M unit :=
  results <~ self_get "testStepResults" ;;
  slots <~ lift (getattr results "TestStepResult") ;;
  slot <~ lift (getitem slots (VInt step_number)) ;;
  slot' <~ lift (setattr slot name v) ;;
  slots' <~ lift (match slots with
                  | VList l => obind (seq_setitem l step_number slot')
                                 (fun l' => Return (VList l'))
                  | _ => Raise TypeError
                  end) ;;
  results' <~ lift (setattr results "TestStepResult" slots') ;;
  self_set "testStepResults" results'.

(** The lazy initialisation of the step results: one empty slot per step of
    the test case. *)
Definition init_testStepResults : M unit :=
  polarion <~ self_get "_polarion" ;;
  service <~ perform (getService polarion "TestManagement") ;;
  testCaseURI <~ self_get "testCaseURI" ;;
  test_steps <~ perform (getTestSteps service testCaseURI) ;;
  steps <~ lift (getattr test_steps "steps") ;;
  number_of_steps <~
    (if negb (is_None steps)
     then lift (obind (obind (getattr test_steps "steps")
                         (fun s => getattr s "TestStep")) len)
     else ret 0) ;;
  array <~ polarion_make ArrayOfTestStepResultType ;;
  self_set "testStepResults" array ;;;
  for_each (seq 0 (Z.to_nat number_of_steps)) (fun _i => append_slot).

Definition setTestStepResult (step_number : Z) (result : ResultType)
    (comment : value) : M unit :=
  results <~ self_get "testStepResults" ;;
  (if is_None results then init_testStepResults else ret tt) ;;;
  results <~ self_get "testStepResults" ;;
  slots <~ lift (getattr results "TestStepResult") ;;
  n <~ lift (len slots) ;;
  (if step_number <? n
   then
     id <~ polarion_make (EnumOptionIdType (ResultType_value result)) ;;
     slot_setattr step_number "result" id ;;;
     (if negb (is_None comment)
      then
        text <~ polarion_make (TextType comment "text/html" false) ;;
        slot_setattr step_number "comment" text
      else ret tt)
   else ret tt) ;;;
  invoke "save" save.

(** [self.ResultType]: the enumeration of the class ([None] here), unless
    an attribute of the record hides it. *)
Definition self_ResultType : M (option value) :=
  fun st => (Return (self st !! "ResultType"), st).

(** What [getResult] returns: a member of the enumeration, or, when an
    attribute hides the enumeration, whatever that attribute holds under
    [No]. *)
Inductive returned :=
| Member (r : ResultType)
| Other (v : value).

(** In [self.ResultType(self.result.id)] the callee is looked up before the
    argument is evaluated, and called after. *)
Definition getResult : M returned :=
  result <~ self_get "result" ;;
  if negb (is_None result)
  then
    hidden <~ self_ResultType ;;
    result <~ self_get "result" ;;
    id <~ lift (getattr result "id") ;;
    match hidden with
    | None => r <~ lift (ResultType_call id) ;; ret (Member r)
    | Some _ => raise TypeError
    end
  else
    hidden <~ self_ResultType ;;
    match hidden with
    | None => ret (Member No)
    | Some v => x <~ lift (getattr v "No") ;; ret (Other x)
    end.

Definition getComment : M value :=
  comment <~ self_get "comment" ;;
  if negb (is_None comment)
  then
    comment <~ self_get "comment" ;;
    lift (getattr comment "content")
  else ret VNone.

Definition getTestCaseName : M value := self_get "_testcase_name".

Definition setComment (comment : value) : M unit :=
  text <~ polarion_make (TextType comment "text/html" false) ;;
  self_set "comment" text.

(** [setResult(result=ResultType.FAILED, comment=None)]; in
    [self.result.id = result.value] the holder is mutated in place: it is
    stored back under [result] with its id replaced and its other fields
    kept.  (The copy of the holder inside the payload under
    [_polarion_record] is left as it was: see the head of the file.) *)
Definition setResult (result : ResultType) (comment : value) : M unit :=
  (if negb (is_None comment) then invoke "setComment" (setComment comment)
   else ret tt) ;;;
  holder <~ self_get "result" ;;
  (if negb (is_None holder)
   then
     holder <~ self_get "result" ;;
     holder' <~ lift (setattr holder "id" (ResultType_value result)) ;;
     self_set "result" holder'
   else
     fresh <~ polarion_make (EnumOptionIdType (ResultType_value result)) ;;
     self_set "result" fresh) ;;;
  invoke "save" save.

(** The defaults of [setResult]'s parameters. *)
Definition setResult_default : M unit := setResult FAILED VNone.

Definition hasAttachment : M bool :=
  attachments <~ self_get "attachments" ;;
  if negb (is_None attachments) then ret true else ret false.

(** [attachment.fileName == file_name] for a file name that is a [str]. *)
Definition eq_str (v : value) (s : string) : bool :=
  match v with
  | VStr s' => String.eqb s' s
  | _ => false
  end.

(** [resp.ok == True] *)
Definition eq_True (v : value) : bool :=
  match v with
  | VBool b => b
  | VInt n => n =? 1
  | _ => false
  end.

(** The search loop of [getAttachment], [url] being the candidate so far. *)
Fixpoint find_url (file_name : string) (attachments : list value) (url : value)
  : outcome value :=
  match attachments with
  | [] => Return url
  | attachment :: rest =>
      obind (getattr attachment "fileName") (fun fileName =>
        if eq_str fileName file_name
        then obind (getattr attachment "url") (find_url file_name rest)
        else find_url file_name rest url)
  end.

Definition download_failed (file_name : string) : exn :=
  PyException ("Could not download attachment " +:+ file_name).

Definition not_found (file_name : string) : exn :=
  PyException ("Could not find attachment with name " +:+ file_name).

Definition getAttachment (file_name : string) : M value :=
  attachments <~ self_get "attachments" ;;
  entries <~ lift (obind (getattr attachments "TestRunAttachment") iter) ;;
  url <~ lift (find_url file_name entries VNone) ;;
  if negb (is_None url)
  then
    polarion <~ self_get "_polarion" ;;
    user <~ lift (getattr polarion "user") ;;
    polarion <~ self_get "_polarion" ;;
    password <~ lift (getattr polarion "password") ;;
    resp <~ perform (requests_get url (user, password)) ;;
    ok <~ lift (getattr resp "ok") ;;
    if eq_True ok
    then lift (getattr resp "content")
    else raise (download_failed file_name)
  else raise (not_found file_name).

Definition saveAttachmentAsFile (file_name file_path : string) : M unit :=
  bin <~ invoke "getAttachment" (getAttachment file_name) ;;
  with_open file_path "wb" (fun file =>
    perform (file_write file bin) ;;; ret tt).

Definition deleteAttachment (file_name : string) : M unit :=
  polarion <~ self_get "_polarion" ;;
  service <~ perform (getService polarion "TestManagement") ;;
  test_run <~ self_get "_test_run" ;;
  uri <~ lift (getattr test_run "uri") ;;
  index <~ self_get "_index" ;;
  perform (deleteAttachmentFromTestRecord service uri index file_name) ;;;
  invoke "_reloadFromPolarion" _reloadFromPolarion.

Definition addAttachment (file_path title : string) : M unit :=
  polarion <~ self_get "_polarion" ;;
  service <~ perform (getService polarion "TestManagement") ;;
  (let file_name := path_tail file_path in
   with_open file_path "rb" (fun file_content =>
     test_run <~ self_get "_test_run" ;;
     uri <~ lift (getattr test_run "uri") ;;
     index <~ self_get "_index" ;;
     content <~ perform (file_read file_content) ;;
     perform (addAttachmentToTestRecord service uri index file_name title content) ;;;
     ret tt)) ;;;
  invoke "_reloadFromPolarion" _reloadFromPolarion.

(** ** Observations on traces and payloads *)

(** The field bags handed to [executeTest], in order. *)
Definition submitted (tr : list event) : list (gmap string value) :=
  omap (fun ev : event =>
          match ev.1 with
          | executeTest _ _ new_item => Some new_item
          | _ => None
          end) tr.

(** The keys the build step may turn into attributes of the record, given
    the payload. *)
Definition projected_keys (polarion_record : value) : list value :=
  match obj_dict polarion_record with
  | Return items =>
      flat_map (fun item : string * value =>
                  match iter item.2 with
                  | Return ks => ks
                  | Raise _ => []
                  end) items
  | Raise _ => []
  end.

(** A world whose records never carry a field named like the identity
    attributes of the record, nor one named [__dict__], which would replace
    the instance dictionary, identity included. *)
Definition identity_safe (w : oracle) : Prop :=
  forall tr service uri testcase records record,
    w tr (getTestCaseRecords service uri testcase) = Return records ->
    getitem records (VInt 0) = Return record ->
    ~ In (VStr "_test_run") (projected_keys record) /\
    ~ In (VStr "_index") (projected_keys record) /\
    ~ In (VStr "__dict__") (projected_keys record).

(** The operations of the projection. *)
Inductive operation :=
| op_setResult (result : ResultType) (comment : value)
| op_setComment (comment : value)
| op_setTestStepResult (step_number : Z) (result : ResultType) (comment : value)
| op_save
| op_reload
| op_addAttachment (file_path title : string)
| op_deleteAttachment (file_name : string).

Definition run (op : operation) : M unit :=
  match op with
  | op_setResult result comment => setResult result comment
  | op_setComment comment => setComment comment
  | op_setTestStepResult n result comment => setTestStepResult n result comment
  | op_save => save
  | op_reload => _reloadFromPolarion
  | op_addAttachment file_path title => addAttachment file_path title
  | op_deleteAttachment file_name => deleteAttachment file_name
  end.

(** A testcase reference the build step cannot parse: no string, or a
    string without the closing brace of the namespace. *)
Fixpoint has_char (c : ascii) (s : string) : bool :=
  match s with
  | EmptyString => false
  | String c' s' => Ascii.eqb c' c || has_char c s'
  end.

Definition unparsable (reference : option value) : Prop :=
  match reference with
  | Some (VStr s) => has_char "}" s = false
  | _ => True
  end.

(** The exceptions by which the build step rejects a testcase reference. *)
Definition MalformedReference (e : exn) : Prop :=
  e = AttributeError "testCaseURI" \/ e = AttributeError "split" \/
  e = TypeError \/ e = IndexError.

(** ** Sample collaborators and records *)

Definition sample_polarion : value :=
  VObj Plain [("user", VStr "admin"); ("password", VStr "secret")].

Definition sample_test_run : value :=
  VObj Plain [("uri", VStr "subterra:data-service:objects:/default/Proj${TestRun}run-1");
              ("id", VStr "run-1")].

Definition sample_fields : list (string * value) :=
  [("testCaseURI", VStr "{ns}Proj/TC-123"); ("defectURI", VNone);
   ("result", VNone); ("comment", VNone); ("testStepResults", VNone);
   ("attachments", VNone); ("executed", VNone); ("executedByURI", VNone)].

Definition sample_record : value := VObj Compound sample_fields.

(** A service that answers every read with the same record and accepts
    every write without storing it. *)
Definition fixed_world (record : value) : oracle :=
  fun _ c =>
    match c with
    | getService _ name => Return (VStr name)
    | getTestCaseRecords _ _ _ => Return (VList [record])
    | getTestSteps _ _ => Return (VObj Compound [("steps", VNone)])
    | requests_get url _ =>
        Return (VObj Plain [("ok", VBool true); ("content", VBytes "data")])
    | _ => Return VNone
    end.

(** A service that stores the bag [executeTest] gave it last and answers
    reads with it. *)
Fixpoint last_submitted (tr : list event) (default : value) : value :=
  match tr with
  | [] => default
  | (executeTest _ _ new_item, Return _) :: tr' =>
      last_submitted tr' (VObj Compound (map_to_list new_item))
  | _ :: tr' => last_submitted tr' default
  end.

Definition storing_world (initial : value) : oracle :=
  fun tr c =>
    match c with
    | getService _ name => Return (VStr name)
    | getTestCaseRecords _ _ _ => Return (VList [last_submitted tr initial])
    | getTestSteps _ _ => Return (VObj Compound [("steps", VNone)])
    | _ => Return VNone
    end.

(** A service whose [executeTest] is rejected. *)
Definition rejecting_world (record : value) : oracle :=
  fun tr c =>
    match c with
    | executeTest _ _ _ => Raise (ExternalError "executeTest rejected")
    | _ => fixed_world record tr c
    end.

(** The record built from a payload by the constructor. *)
Definition constructed (w : oracle) (polarion_record : value) : state :=
  (__init__ sample_polarion sample_test_run polarion_record (VInt 0) (new_state w)).2.

(** Sample records and the states the constructor builds from them. *)
Definition with_field (name : string) (v : value) (record : value) : value :=
  match record with
  | VObj c fields => VObj c (assoc_set name v fields)
  | _ => record
  end.

(** A record that carries a field named like the private index. *)
Definition hijacking_record : value := with_field "_index" (VInt 7) sample_record.

(** A record that carries a field named [__dict__], holding a dictionary
    with an index of its own. *)
Definition replacing_record : value :=
  with_field "__dict__" (VDict [("_index", VInt 99)]) sample_record.

(** A record whose own field [_polarion_record] holds another record. *)
Definition shadowing_record : value :=
  with_field "_polarion_record"
    (with_field "testCaseURI" (VStr "{ns}Other/TC-9") sample_record) sample_record.

Definition two_slots : value :=
  VObj Compound [("TestStepResult", VList [TestStepResultType; TestStepResultType])].

Definition two_slots_record : value :=
  with_field "testStepResults" two_slots sample_record.

Definition TestRunAttachment (fileName url : value) : value :=
  VObj Compound [("fileName", fileName); ("title", VStr "attachment"); ("url", url)].

Definition sample_attachments : value :=
  VObj Compound [("TestRunAttachment",
    VList [TestRunAttachment (VStr "log.txt") (VStr "http://polarion/att/1");
           TestRunAttachment (VStr "trace.bin") (VStr "http://polarion/att/2");
           TestRunAttachment (VStr "log.txt") (VStr "http://polarion/att/3")])].

Definition attachments_record : value :=
  with_field "attachments" sample_attachments sample_record.

Definition empty_attachments_record : value :=
  with_field "attachments" (VObj Compound [("TestRunAttachment", VList [])])
    sample_record.

Definition passed_record : value :=
  with_field "result" (VObj Compound [("id", VStr "passed")]) sample_record.

(** A world whose downloads answer with a status that is not ok. *)
Definition offline_world (record : value) : oracle :=
  fun tr c =>
    match c with
    | requests_get _ _ =>
        Return (VObj Plain [("ok", VBool false); ("content", VBytes "")])
    | _ => fixed_world record tr c
    end.

Definition sample_state : state :=
  constructed (fixed_world sample_record) sample_record.

(** The identity of a record: its world, its test run and its index. *)
Definition identity_is (w : oracle) (test_run index : option value) (st : state) : Prop :=
  world st = w /\ self st !! "_test_run" = test_run /\ self st !! "_index" = index.

(** The attribute names whose assignment leaves the identity alone. *)
Definition public_name (name : string) : Prop :=
  name <> "_test_run" /\ name <> "_index" /\ name <> "__dict__".

Definition rejected_state : state :=
  constructed (rejecting_world sample_record) sample_record.

Definition stored_state : state :=
  constructed (storing_world sample_record) sample_record.

Definition passed_state : state :=
  constructed (storing_world passed_record) passed_record.

Definition two_slots_state : state :=
  constructed (fixed_world two_slots_record) two_slots_record.

Definition attachments_state : state :=
  constructed (fixed_world attachments_record) attachments_record.

Definition offline_state : state :=
  constructed (offline_world attachments_record) attachments_record.

Definition empty_attachments_state : state :=
  constructed (fixed_world empty_attachments_record) empty_attachments_record.

(** A record whose testcase reference lacks the namespace delimiter, and
    the state of a projection that holds a payload it has not built yet. *)
Definition unbraced_record : value :=
  with_field "testCaseURI" (VStr "Proj/TC-123") sample_record.

Definition holding (polarion_record : value) : state :=
  mkState {["_polarion_record" := polarion_record]} [] (fixed_world polarion_record).

(** The result holder [setResult()] leaves: a fresh holder when the result
    was null, the holder that was there, its id replaced, otherwise. *)
Definition set_failed (holder : value) : value :=
  match holder with
  | VNone => EnumOptionIdType (VStr "failed")
  | VObj c fields => VObj c (assoc_set "id" (VStr "failed") fields)
  | _ => holder
  end.

(** ** Attachment entries *)

(** An entry whose file name is, or is not, the one looked for, and an
    entry that has the two attributes the search reads. *)
Definition entry_named (file_name : string) (attachment : value) : Prop :=
  exists fileName,
    getattr attachment "fileName" = Return fileName /\
    eq_str fileName file_name = true.

Definition entry_not_named (file_name : string) (attachment : value) : Prop :=
  exists fileName,
    getattr attachment "fileName" = Return fileName /\
    eq_str fileName file_name = false.

Definition entry_ok (attachment : value) : Prop :=
  (exists fileName, getattr attachment "fileName" = Return fileName) /\
  (exists url, getattr attachment "url" = Return url).

(** ** The attributes a projected mapping leaves *)

(** A payload none of whose fields bears a name the class keeps for
    itself: every field is stored by the build step as an attribute. *)
Definition ordinary_fields (fields : list (string * value)) : Prop :=
  assoc "__class__" fields = None /\
  assoc "__dict__" fields = None /\
  assoc "__weakref__" fields = None.

(** The instance dictionary after [setattr(self, key, fields[key])] for the
    keys [ks] of the mapping [fields]. *)
Definition project_fields (ks : list string) (fields : list (string * value))
    (d : gmap string value) : gmap string value :=
  fold_left (fun d k => match assoc k fields with
                        | Some v => <[k:=v]> d
                        | None => d
                        end) ks d.

(** ** Specifications of method bodies *)

(** [hoare P m Q]: run from a state satisfying [P], the body [m] ends, by
    returning or raising, in a state and with an outcome related by [Q]. *)
Definition hoare {A} (P : state -> Prop) (m : M A)
    (Q : outcome A -> state -> Prop) : Prop :=
  forall st, P st -> Q (m st).1 (m st).2.

(** [keeps I m]: the body [m] maintains [I], however it ends. *)
Definition keeps {A} (I : state -> Prop) (m : M A) : Prop :=
  hoare I m (fun _ => I).

(** What an invariant must tolerate: attribute writes to the names in
    [names], and calls in [calls] being added to the trace. *)
Definition self_stable (I : state -> Prop) (names : string -> Prop) : Prop :=
  forall st name v, names name -> I st ->
    I (mkState (<[name:=v]> (self st)) (trace st) (world st)).

Definition trace_stable (I : state -> Prop) (calls : call -> Prop) : Prop :=
  forall st c, calls c -> I st ->
    I (mkState (self st) (trace st ++ [(c, world st (trace st) c)]) (world st)).

(** When [__dict__] is among the names, the invariant must also tolerate
    the replacement of the instance dictionary. *)
Definition dict_stable (I : state -> Prop) (names : string -> Prop) : Prop :=
  names "__dict__" ->
  forall st d, I st -> I (mkState d (trace st) (world st)).

(** The names the payload held by the record would project all lie in
    [names]. *)
Definition payload_names (names : string -> Prop) (st : state) : Prop :=
  forall polarion_record k,
    self st !! "_polarion_record" = Some polarion_record ->
    In (VStr k) (projected_keys polarion_record) -> names k.

(** ** Further observations and samples *)

(** The paths handed to [open], in order. *)
Definition opened (tr : list event) : list string :=
  omap (fun ev : event =>
          match ev.1 with
          | open_ file_path _ => Some file_path
          | _ => None
          end) tr.

(** A step-result slot after [setTestStepResult] has set it: the result
    holder always, the comment when one was given. *)
Definition slot_with (result : ResultType) (comment : value) (slot : value) : value :=
  match slot with
  | VObj c fields =>
      let fields1 :=
        assoc_set "result" (EnumOptionIdType (ResultType_value result)) fields in
      VObj c (if is_None comment then fields1
              else assoc_set "comment" (TextType comment "text/html" false) fields1)
  | _ => slot
  end.

(** The attributes the build step derives, which no payload field
    survives in. *)
Definition cache_name (name : string) : Prop :=
  name = "_testcase" \/ name = "_testcase_name" \/ name = "_defect".

Definition is_delete (c : call) : bool :=
  match c with
  | deleteAttachmentFromTestRecord _ _ _ _ => true
  | _ => false
  end.

Definition is_upload (c : call) : bool :=
  match c with
  | addAttachmentToTestRecord _ _ _ _ _ _ => true
  | _ => false
  end.

(** A world with a file system: files open, read as some bytes, and take
    writes. *)
Definition disk_world (record : value) : oracle :=
  fun tr c =>
    match c with
    | open_ file_path _ => Return (VStr file_path)
    | file_read _ => Return (VBytes "file content")
    | _ => fixed_world record tr c
    end.

(** A world that refuses the calls selected by [refused]. *)
Definition refusing_world (refused : call -> bool) (record : value) : oracle :=
  fun tr c =>
    if refused c then Raise (ExternalError "refused") else disk_world record tr c.

(** A service that knows of no record. *)
Definition empty_world : oracle :=
  fun tr c =>
    match c with
    | getTestCaseRecords _ _ _ => Return (VList [])
    | _ => fixed_world VNone tr c
    end.

(** A service whose test case has three steps. *)
Definition steps_world (record : value) : oracle :=
  fun tr c =>
    match c with
    | getTestSteps _ _ =>
        Return (VObj Compound
                  [("steps", VObj Compound
                               [("TestStep", VList [VStr "a"; VStr "b"; VStr "c"])])])
    | _ => fixed_world record tr c
    end.

Definition steps_state : state :=
  constructed (steps_world sample_record) sample_record.

Definition disk_state : state :=
  constructed (disk_world attachments_record) attachments_record.

(** A record whose attachment entry has no url. *)
Definition no_url_record : value :=
  with_field "attachments"
    (VObj Compound [("TestRunAttachment",
       VList [TestRunAttachment (VStr "log.txt") VNone])])
    sample_record.

Definition no_url_state : state :=
  constructed (fixed_world no_url_record) no_url_record.

(** A record with two attachment entries of the same name, the first with
    a url, the last without. *)
Definition null_last_attachments : value :=
  VObj Compound [("TestRunAttachment",
    VList [TestRunAttachment (VStr "log.txt") (VStr "http://polarion/att/1");
           TestRunAttachment (VStr "log.txt") VNone])].

Definition null_last_record : value :=
  with_field "attachments" null_last_attachments sample_record.

Definition null_last_state : state :=
  constructed (fixed_world null_last_record) null_last_record.

(** The record as [setResult(result, comment)] leaves it before it
    saves: the comment stored when one was given, the result holder created
    when the result was null, its id replaced otherwise. *)
Definition with_result_id (id : value) (holder : value) : value :=
  match holder with
  | VNone => EnumOptionIdType id
  | VObj c fields => VObj c (assoc_set "id" id fields)
  | _ => holder
  end.

Definition locally_set (result : ResultType) (comment holder : value) (st : state)
  : state :=
  mkState
    (<["result":=with_result_id (ResultType_value result) holder]>
       (if is_None comment then self st
        else <["comment":=TextType comment "text/html" false]> (self st)))
    (trace st) (world st).


(** The sample projection with another index. *)
Definition drifted_index_state : state :=
  mkState (<["_index":=VInt 5]> (self sample_state))
    (trace sample_state) (world sample_state).

Definition lost_state : state :=
  mkState (self sample_state) (trace sample_state) empty_world.


Definition refused_delete_state : state :=
  constructed (refusing_world is_delete sample_record) sample_record.

Definition refused_upload_state : state :=
  constructed (refusing_world is_upload sample_record) sample_record.

(** * Verification *)

(** ** Reasoning about method bodies *)

Lemma bind_Return {A B} (m : M A) (k : A -> M B) st a st' :
  m st = (Return a, st') -> bind m k st = k a st'.
Proof. intros H. unfold bind. now rewrite H. Qed.

Lemma bind_Raise {A B} (m : M A) (k : A -> M B) st e st' :
  m st = (Raise e, st') -> bind m k st = (Raise e, st').
Proof. intros H. unfold bind. now rewrite H. Qed.

Lemma self_get_Some name v st :
  self st !! name = Some v -> self_get name st = (Return v, st).
Proof. intros H. unfold self_get. now rewrite H. Qed.

Lemma self_get_None name st :
  self st !! name = None -> self_get name st = (Raise (AttributeError name), st).
Proof. intros H. unfold self_get. now rewrite H. Qed.

Lemma hoare_bind {A B} (P : state -> Prop) (m : M A) Q (k : A -> M B) R :
  hoare P m Q ->
  (forall e st, Q (Raise e) st -> R (Raise e) st) ->
  (forall a, hoare (Q (Return a)) (k a) R) ->
  hoare P (bind m k) R.
Proof.
  intros Hm He Hk st HP. specialize (Hm st HP). unfold bind.
  destruct (m st) as [[a|e] st']; simpl in Hm.
  - now apply Hk.
  - now apply He.
Qed.

Lemma hoare_weaken {A} (P P' : state -> Prop) (m : M A) (Q Q' : outcome A -> state -> Prop) :
  hoare P' m Q' -> (forall st, P st -> P' st) ->
  (forall r st, Q' r st -> Q r st) -> hoare P m Q.
Proof. intros H HP HQ st Hst. apply HQ, H, HP, Hst. Qed.

Lemma keeps_bind {A B} I (m : M A) (k : A -> M B) :
  keeps I m -> (forall a, keeps I (k a)) -> keeps I (bind m k).
Proof. intros Hm Hk. apply hoare_bind with (Q := fun _ => I); auto. Qed.

Lemma keeps_ret {A} I (a : A) : keeps I (ret a).
Proof. now intros st H. Qed.

Lemma keeps_raise {A} I e : keeps I (@raise A e).
Proof. now intros st H. Qed.

Lemma keeps_lift {A} I (o : outcome A) : keeps I (lift o).
Proof. now intros st H. Qed.

Lemma keeps_self_get I name : keeps I (self_get name).
Proof. intros st H. unfold self_get. now destruct (self st !! name). Qed.

Lemma keeps_for_each {A} I (l : list A) body :
  (forall x, In x l -> keeps I (body x)) -> keeps I (for_each l body).
Proof.
  induction l as [|x l IH]; intros Hb; simpl.
  - apply keeps_ret.
  - apply keeps_bind; [apply Hb; now left|].
    intros _. apply IH. intros y Hy. apply Hb. now right.
Qed.

Lemma keeps_self_set I names name v :
  self_stable I names -> names name -> keeps I (self_set name v).
Proof. intros HI Hn st H. now apply HI. Qed.

Lemma keeps_self_setattr I names key v :
  self_stable I names -> dict_stable I names ->
  (forall name, key = VStr name -> names name) ->
  keeps I (self_setattr key v).
Proof.
  intros HI Hd Hn. destruct key as [| | |name| | | |]; try apply keeps_raise.
  unfold self_setattr.
  destruct (String.eqb name "__class__"); [apply keeps_raise|].
  destruct (String.eqb name "__weakref__"); [apply keeps_raise|].
  destruct (String.eqb_spec name "__dict__") as [->|_].
  - destruct v; try apply keeps_raise.
    intros st H. simpl. apply Hd; auto.
  - apply keeps_self_set with names; auto.
Qed.

Lemma invoke_None {A} name (m : M A) st :
  self st !! name = None -> invoke name m st = m st.
Proof. intros H. unfold invoke. now rewrite H. Qed.

Lemma invoke_Some {A} name (m : M A) st v :
  self st !! name = Some v -> invoke name m st = (Raise TypeError, st).
Proof. intros H. unfold invoke. now rewrite H. Qed.

Lemma invoke_cases {A} name (m : M A) st :
  invoke name m st = m st \/ invoke name m st = (Raise TypeError, st).
Proof. unfold invoke. destruct (self st !! name); auto. Qed.

Lemma hoare_invoke {A} (P : state -> Prop) name (m : M A) Q :
  hoare P m Q -> (forall st, P st -> Q (Raise TypeError) st) ->
  hoare P (invoke name m) Q.
Proof.
  intros Hm Hr st HP. destruct (invoke_cases name m st) as [-> | ->].
  - now apply Hm.
  - now apply Hr.
Qed.

Lemma keeps_invoke {A} I name (m : M A) : keeps I m -> keeps I (invoke name m).
Proof. intros H. apply hoare_invoke; auto. Qed.

Lemma keeps_perform I calls c :
  trace_stable I calls -> calls c -> keeps I (perform c).
Proof. intros HI Hc st H. now apply HI. Qed.

Lemma keeps_polarion_make I v : keeps I (polarion_make v).
Proof.
  apply keeps_bind; [apply keeps_self_get | intros; apply keeps_ret].
Qed.

Lemma keeps_with_open {A} I calls file_path mode (body : value -> M A) :
  trace_stable I calls ->
  calls (open_ file_path mode) -> (forall f, calls (file_close f)) ->
  (forall f, keeps I (body f)) -> keeps I (with_open file_path mode body).
Proof.
  intros HI Ho Hc Hb. apply keeps_bind; [now apply keeps_perform with calls|].
  intros f st H. specialize (Hb f st H).
  destruct (body f st) as [[a|e] st'] eqn:E; simpl in Hb.
  - apply (keeps_bind I (perform (file_close f)) (fun _ => ret a)); auto.
    + now apply keeps_perform with calls.
    + intros; apply keeps_ret.
  - apply (keeps_bind I (perform (file_close f)) (fun _ => raise e)); auto.
    + now apply keeps_perform with calls.
    + intros; apply keeps_raise.
Qed.

Lemma keeps_bind_lift {A B} I (o : outcome A) (k : A -> M B) :
  (forall a, o = Return a -> keeps I (k a)) -> keeps I (bind (lift o) k).
Proof.
  intros Hk st H. unfold bind, lift. destruct o as [a|e]; simpl; [|exact H].
  now apply (Hk a).
Qed.

Lemma keeps_read {A} I (f : state -> A) : keeps I (fun st => (Return (f st), st)).
Proof. now intros st H. Qed.

Ltac keeps_step :=
  first
    [ apply keeps_ret | apply keeps_raise | apply keeps_lift
    | apply keeps_self_get | apply keeps_polarion_make | apply keeps_read
    | match goal with
      | |- keeps _ (if ?b then _ else _) => destruct b
      | HI : self_stable ?I ?names |- keeps ?I (self_set _ _) =>
          apply (keeps_self_set I names); [exact HI | auto]
      | HI : trace_stable ?I ?calls |- keeps ?I (perform _) =>
          apply (keeps_perform I calls); [exact HI | auto]
      end
    | apply keeps_bind; [| intros ?] ].

Ltac keeps_auto := repeat keeps_step.

Section Frames.
Variable I : state -> Prop.
Variable names : string -> Prop.
Variable calls : call -> Prop.
Hypothesis I_self : self_stable I names.
Hypothesis I_dict : dict_stable I names.
Hypothesis I_trace : trace_stable I calls.
Hypothesis names_testcase : names "_testcase".
Hypothesis names_testcase_name : names "_testcase_name".
Hypothesis names_defect : names "_defect".

Lemma project_mapping_keeps value :
  (forall k ks, iter value = Return ks -> In (VStr k) ks -> names k) ->
  keeps I (project_mapping value).
Proof.
  intros Hk. unfold project_mapping.
  apply keeps_bind_lift. intros ks Hks.
  apply keeps_for_each. intros key Hin.
  apply keeps_bind; [apply keeps_lift|]. intros v.
  apply (keeps_self_setattr I names); [exact I_self | exact I_dict |].
  intros name ->. now apply (Hk name ks).
Qed.

Lemma build_keeps :
  hoare (fun st => I st /\ payload_names names st)
    _buildWorkitemFromPolarion (fun _ => I).
Proof.
  intros st [HI Hp]. unfold _buildWorkitemFromPolarion.
  destruct (self st !! "_polarion_record") as [rec|] eqn:E.
  2:{ now rewrite (bind_Raise _ _ _ _ _ (self_get_None _ _ E)). }
  rewrite (bind_Return _ _ _ _ _ (self_get_Some _ _ _ E)).
  match goal with |- I (snd (?m st)) => cut (keeps I m) end.
  { intros Hk. exact (Hk st HI). }
  apply keeps_bind_lift. intros items Hitems.
  apply keeps_bind.
  - apply keeps_for_each. intros [attr value] Hin.
    apply project_mapping_keeps. intros k ks Hks Hk.
    apply (Hp rec k E). unfold projected_keys. rewrite Hitems.
    apply in_flat_map. exists (attr, value). split; [exact Hin|].
    simpl. now rewrite Hks.
  - intros _. unfold derive_references. keeps_auto.
Qed.

Hypothesis names_polarion_record : names "_polarion_record".
Hypothesis calls_getService : forall p n, calls (getService p n).
Hypothesis calls_getTestCaseRecords :
  forall s u t, calls (getTestCaseRecords s u t).
Hypothesis records_names :
  forall st s u t records record k,
    I st ->
    world st (trace st) (getTestCaseRecords s u t) = Return records ->
    getitem records (VInt 0) = Return record ->
    In (VStr k) (projected_keys record) -> names k.

Lemma reload_keeps : keeps I _reloadFromPolarion.
Proof.
  unfold _reloadFromPolarion.
  do 5 (apply keeps_bind; [keeps_auto | intros ?]).
  apply hoare_bind with
    (Q := fun r st' => I st' /\
            forall records record k, r = Return records ->
              getitem records (VInt 0) = Return record ->
              In (VStr k) (projected_keys record) -> names k).
  - intros st HI. split.
    + now apply I_trace.
    + simpl. intros records record k Hr Hg Hk.
      exact (records_names st _ _ _ records record k HI Hr Hg Hk).
  - now intros e st [HI _].
  - intros records. intros st [HI Hrec].
    unfold bind at 1, lift. destruct (getitem records (VInt 0)) as [record|e] eqn:Eg;
      simpl; [|exact HI].
    refine (hoare_bind I (self_set "_polarion_record" record)
              (fun _ st' => I st' /\ payload_names names st')
              (fun _ => invoke "_buildWorkitemFromPolarion" _buildWorkitemFromPolarion)
              (fun _ => I) _ _ _ st HI).
    + intros st0 HI0. split.
      * now apply I_self.
      * intros rec k. simpl. rewrite lookup_insert_eq. intros [= <-].
        now apply (Hrec records).
    + now intros e st0 [H0 _].
    + intros _. apply hoare_invoke; [apply build_keeps | now intros st0 [H0 _]].
Qed.

Lemma deleteAttachment_keeps file_name :
  (forall s u i, calls (deleteAttachmentFromTestRecord s u i file_name)) ->
  keeps I (deleteAttachment file_name).
Proof.
  intros Hc. unfold deleteAttachment.
  do 6 (apply keeps_bind; [keeps_auto | intros ?]).
  apply keeps_invoke, reload_keeps.
Qed.

Lemma addAttachment_keeps file_path title :
  (forall c, calls c) -> keeps I (addAttachment file_path title).
Proof.
  intros Hc. unfold addAttachment.
  do 2 (apply keeps_bind; [keeps_auto | intros ?]).
  apply keeps_bind; [|intros; apply keeps_invoke, reload_keeps].
  apply (keeps_with_open I calls); auto. intros f. keeps_auto.
Qed.

Lemma save_keeps :
  (forall s u item, calls (executeTest s u item)) -> keeps I save.
Proof.
  intros Hc. unfold save.
  do 6 (apply keeps_bind; [keeps_auto | intros ?]).
  apply keeps_invoke, reload_keeps.
Qed.

Lemma setComment_keeps comment : names "comment" -> keeps I (setComment comment).
Proof. intros Hn. unfold setComment. keeps_auto. Qed.

Lemma setResult_keeps result comment :
  (forall s u item, calls (executeTest s u item)) ->
  names "comment" -> names "result" -> keeps I (setResult result comment).
Proof.
  intros Hc Hn1 Hn2. unfold setResult.
  apply keeps_bind.
  { destruct (negb (is_None comment));
      [now apply keeps_invoke, setComment_keeps | apply keeps_ret]. }
  intros _. do 2 (apply keeps_bind; [keeps_auto | intros ?]).
  now apply keeps_invoke, save_keeps.
Qed.

Lemma append_slot_keeps : names "testStepResults" -> keeps I append_slot.
Proof. intros Hn. unfold append_slot. keeps_auto. Qed.

Lemma slot_setattr_keeps n name v :
  names "testStepResults" -> keeps I (slot_setattr n name v).
Proof. intros Hn. unfold slot_setattr. keeps_auto. Qed.

Lemma init_testStepResults_keeps :
  (forall s u, calls (getTestSteps s u)) -> names "testStepResults" ->
  keeps I init_testStepResults.
Proof.
  intros Hc Hn. unfold init_testStepResults.
  do 8 (apply keeps_bind; [keeps_auto | intros ?]).
  apply keeps_for_each. intros; now apply append_slot_keeps.
Qed.

Lemma setTestStepResult_keeps n result comment :
  (forall c, calls c) -> names "testStepResults" ->
  keeps I (setTestStepResult n result comment).
Proof.
  intros Hc Hn. unfold setTestStepResult.
  apply keeps_bind; [keeps_auto | intros results].
  apply keeps_bind.
  { destruct (is_None results); [now apply init_testStepResults_keeps | apply keeps_ret]. }
  intros _. do 3 (apply keeps_bind; [keeps_auto | intros ?]).
  apply keeps_bind; [|intros; now apply keeps_invoke, save_keeps].
  destruct (_ <? _); [|apply keeps_ret].
  apply keeps_bind; [keeps_auto | intros ?].
  apply keeps_bind; [now apply slot_setattr_keeps | intros ?].
  destruct (negb _); [|apply keeps_ret].
  apply keeps_bind; [keeps_auto | intros ?]. now apply slot_setattr_keeps.
Qed.

Lemma run_keeps op :
  (forall c, calls c) ->
  names "comment" -> names "result" -> names "testStepResults" ->
  keeps I (run op).
Proof.
  intros Hc H1 H2 H3. destruct op; simpl.
  - now apply setResult_keeps.
  - now apply setComment_keeps.
  - now apply setTestStepResult_keeps.
  - now apply save_keeps.
  - apply reload_keeps.
  - now apply addAttachment_keeps.
  - now apply deleteAttachment_keeps.
Qed.
End Frames.

(** ** The identity of a record *)

Section Identity.
Variable w : oracle.
Variable test_run index : option value.

Let identity := identity_is w test_run index.

Lemma identity_self_stable : self_stable identity public_name.
Proof.
  intros st name v (H1 & H2 & _) (Hw & Ht & Hi). repeat split; simpl; auto.
  - now rewrite lookup_insert_ne.
  - now rewrite lookup_insert_ne.
Qed.

Lemma identity_dict_stable : dict_stable identity public_name.
Proof. intros (_ & _ & H). now contradiction H. Qed.

Lemma identity_trace_stable : trace_stable identity (fun _ => True).
Proof. now intros st c _ H. Qed.

Lemma identity_kept op : identity_safe w -> keeps identity (run op).
Proof.
  intros Hw.
  apply (run_keeps identity public_name (fun _ => True));
    try (repeat split; discriminate);
    auto using identity_self_stable, identity_dict_stable, identity_trace_stable.
  intros st s u t records record k (Hst & _) Hr Hg Hk. rewrite Hst in Hr.
  destruct (Hw _ _ _ _ _ _ Hr Hg) as (H1 & H2 & H3).
  repeat split; intros ->; auto.
Qed.
End Identity.

Lemma fixed_world_identity_safe record :
  ~ In (VStr "_test_run") (projected_keys record) ->
  ~ In (VStr "_index") (projected_keys record) ->
  ~ In (VStr "__dict__") (projected_keys record) ->
  identity_safe (fixed_world record).
Proof.
  intros H1 H2 H3 tr s u t records rec Hr Hg. simpl in Hr.
  injection Hr as <-. injection Hg as <-. now repeat split.
Qed.

(** C9 (as amended): provided no record returned by the service carries a
    field named [_test_run], [_index] or [__dict__], every operation of the
    projection -- setResult, setComment, setTestStepResult, save, reload,
    addAttachment, deleteAttachment -- leaves the stored test run reference
    and index unchanged, whether it returns or raises. *)
Theorem identity_immutable (op : operation) (st : state) :
  identity_safe (world st) ->
  self (run op st).2 !! "_test_run" = self st !! "_test_run" /\
  self (run op st).2 !! "_index" = self st !! "_index".
Proof.
  intros Hw.
  destruct (identity_kept (world st) (self st !! "_test_run") (self st !! "_index")
              op Hw st) as (_ & Ht & Hi).
  - now repeat split.
  - now split.
Qed.

Lemma identity_immutable_witness :
  identity_safe (world sample_state) /\
  self (run (op_setResult PASSED (VStr "done")) sample_state).2 !! "_test_run"
    = self sample_state !! "_test_run" /\
  self (run (op_setResult PASSED (VStr "done")) sample_state).2 !! "_index"
    = self sample_state !! "_index".
Proof.
  assert (Hsafe : identity_safe (world sample_state)).
  { apply fixed_world_identity_safe; vm_compute; intuition discriminate. }
  split; [exact Hsafe|].
  exact (identity_immutable (op_setResult PASSED (VStr "done")) sample_state Hsafe).
Defined.

(** C9 (as stated) fails: a reload against a service whose record carries a
    field named [_index] replaces the stored index. *)
Lemma identity_overwritten_by_payload :
  let st := constructed (fixed_world hijacking_record) sample_record in
  self st !! "_index" = Some (VInt 0) /\
  (run op_reload st).1 = Return tt /\
  self (run op_reload st).2 !! "_index" = Some (VInt 7).
Proof. vm_compute. repeat split. Qed.

(** A field named [__dict__] does the same to the whole identity: the
    dictionary it holds becomes the instance dictionary, the index is the one
    found there and the test run reference is gone. *)
Lemma identity_replaced_by_dict_payload :
  let st := constructed (fixed_world replacing_record) sample_record in
  self st !! "_index" = Some (VInt 0) /\
  self st !! "_test_run" = Some sample_test_run /\
  self (run op_reload st).2 !! "_index" = Some (VInt 99) /\
  self (run op_reload st).2 !! "_test_run" = None.
Proof. vm_compute. repeat split. Qed.

(** ** Save: what is submitted, and what a rejected write leaves behind *)

Lemma submitted_snoc tr c r :
  submitted (tr ++ [(c, r)]) =
  (submitted tr ++ match c with
                   | executeTest _ _ new_item => [new_item]
                   | _ => []
                   end)%list.
Proof.
  unfold submitted. rewrite omap_app. simpl.
  destruct c; simpl; now rewrite ?app_nil_r.
Qed.

Lemma public_items_lookup (d : gmap string value) attr :
  public_items d !! attr = if startswith attr "_" then None else d !! attr.
Proof.
  unfold public_items. rewrite map_lookup_filter.
  destruct (d !! attr) as [v|] eqn:E; simpl.
  - destruct (startswith attr "_") eqn:Es.
    + rewrite option_guard_False; [reflexivity|]. now intros H.
    + rewrite option_guard_True; [reflexivity|]. discriminate.
  - now destruct (startswith attr "_").
Qed.

(** The reload never writes: the bags submitted so far stay what they
    were. *)
Lemma reload_submits_nothing st :
  submitted (trace (_reloadFromPolarion st).2) = submitted (trace st).
Proof.
  apply (reload_keeps (fun s => submitted (trace s) = submitted (trace st))
           (fun _ => True)
           (fun c => match c with executeTest _ _ _ => False | _ => True end));
    auto.
  - now intros s name v _ H.
  - now intros _ s d H.
  - intros s c Hc H. simpl. rewrite submitted_snoc, H.
    destruct c; try apply app_nil_r. contradiction.
Qed.

Lemma invoke_reload_submits_nothing st :
  submitted (trace (invoke "_reloadFromPolarion" _reloadFromPolarion st).2)
    = submitted (trace st).
Proof.
  destruct (invoke_cases "_reloadFromPolarion" _reloadFromPolarion st) as [-> | ->];
    [apply reload_submits_nothing | reflexivity].
Qed.

(** The path of [save] up to the remote write. *)
Lemma save_until_write st polarion service test_run uri :
  self st !! "_polarion" = Some polarion ->
  world st (trace st) (getService polarion "TestManagement") = Return service ->
  self st !! "_test_run" = Some test_run ->
  getattr test_run "uri" = Return uri ->
  let gs := (getService polarion "TestManagement", Return service) in
  let write := executeTest service uri (public_items (self st)) in
  let answer := world st (trace st ++ [gs]) write in
  let st' := mkState (self st) (trace st ++ [gs; (write, answer)]) (world st) in
  save st = match answer with
            | Return _ => invoke "_reloadFromPolarion" _reloadFromPolarion st'
            | Raise e => (Raise e, st')
            end.
Proof.
  intros Hp Hs Ht Hu. simpl. unfold save.
  unfold bind at 1. simpl.
  rewrite (bind_Return _ _ _ _ _ (self_get_Some _ _ _ Hp)).
  unfold bind at 1, perform at 1. rewrite Hs. simpl.
  unfold bind at 1, self_get at 1. simpl. rewrite Ht.
  unfold bind at 1, lift at 1. rewrite Hu.
  unfold bind at 1, perform at 1. simpl.
  rewrite <- app_assoc. simpl.
  now destruct (world st (trace st ++ _) _).
Qed.

(** C2: whenever [save] reaches the service, the one field bag it submits
    to [executeTest] holds exactly the public attributes of the record:
    no attribute whose name starts with an underscore, and every other
    attribute, known or not, with the value the record holds. *)
Theorem save_submits_public_attributes st polarion service test_run uri :
  self st !! "_polarion" = Some polarion ->
  world st (trace st) (getService polarion "TestManagement") = Return service ->
  self st !! "_test_run" = Some test_run ->
  getattr test_run "uri" = Return uri ->
  exists new_item,
    submitted (trace (save st).2) = (submitted (trace st) ++ [new_item])%list /\
    forall attr,
      new_item !! attr = if startswith attr "_" then None else self st !! attr.
Proof.
  intros Hp Hs Ht Hu. exists (public_items (self st)). split.
  2:{ intros attr. apply public_items_lookup. }
  rewrite (save_until_write st polarion service test_run uri Hp Hs Ht Hu).
  cbv zeta.
  assert (Hsub : forall a,
    submitted (trace st ++
      [(getService polarion "TestManagement", Return service);
       (executeTest service uri (public_items (self st)), a)])
    = (submitted (trace st) ++ [public_items (self st)])%list).
  { intros a.
    change (trace st ++ [?x; ?y]) with (trace st ++ [x] ++ [y]).
    rewrite app_assoc, !submitted_snoc. now rewrite app_nil_r. }
  destruct (world st (trace st ++ _) _) as [a|e] eqn:E.
  - rewrite invoke_reload_submits_nothing. simpl. apply Hsub.
  - simpl. apply Hsub.
Qed.

Lemma sample_state_polarion : self sample_state !! "_polarion" = Some sample_polarion.
Proof. vm_compute. reflexivity. Qed.

Lemma sample_state_test_run : self sample_state !! "_test_run" = Some sample_test_run.
Proof. vm_compute. reflexivity. Qed.

Lemma save_submits_public_attributes_witness :
  exists new_item,
    submitted (trace (save sample_state).2)
      = (submitted (trace sample_state) ++ [new_item])%list /\
    forall attr,
      new_item !! attr
        = if startswith attr "_" then None else self sample_state !! attr.
Proof.
  apply (save_submits_public_attributes sample_state sample_polarion
           (VStr "TestManagement") sample_test_run
           (VStr "subterra:data-service:objects:/default/Proj${TestRun}run-1")).
  - vm_compute. reflexivity.
  - vm_compute. reflexivity.
  - vm_compute. reflexivity.
  - vm_compute. reflexivity.
Defined.

(** C3: when the remote [executeTest] call inside [save] raises, the
    exception reaches the caller, the attributes of the record are exactly
    those [save] was entered with, and the trace ends with the rejected
    write: the reload was never started. *)
Theorem save_failure_leaves_record st polarion service test_run uri e :
  self st !! "_polarion" = Some polarion ->
  world st (trace st) (getService polarion "TestManagement") = Return service ->
  self st !! "_test_run" = Some test_run ->
  getattr test_run "uri" = Return uri ->
  world st (trace st ++ [(getService polarion "TestManagement", Return service)])
    (executeTest service uri (public_items (self st))) = Raise e ->
  (save st).1 = Raise e /\
  self (save st).2 = self st /\
  trace (save st).2 =
    trace st ++ [(getService polarion "TestManagement", Return service);
                 (executeTest service uri (public_items (self st)), Raise e)].
Proof.
  intros Hp Hs Ht Hu He.
  rewrite (save_until_write st polarion service test_run uri Hp Hs Ht Hu).
  cbv zeta. rewrite He. now simpl.
Qed.

Lemma save_failure_leaves_record_witness :
  (save rejected_state).1 = Raise (ExternalError "executeTest rejected") /\
  self (save rejected_state).2 = self rejected_state /\
  trace (save rejected_state).2 =
    trace rejected_state ++
      [(getService sample_polarion "TestManagement", Return (VStr "TestManagement"));
       (executeTest (VStr "TestManagement")
          (VStr "subterra:data-service:objects:/default/Proj${TestRun}run-1")
          (public_items (self rejected_state)),
        Raise (ExternalError "executeTest rejected"))].
Proof.
  apply (save_failure_leaves_record rejected_state sample_polarion
           (VStr "TestManagement") sample_test_run
           (VStr "subterra:data-service:objects:/default/Proj${TestRun}run-1")
           (ExternalError "executeTest rejected")).
  - vm_compute. reflexivity.
  - reflexivity.
  - vm_compute. reflexivity.
  - reflexivity.
  - reflexivity.
Defined.

(** ** Attachments and comments *)

(** C7: [hasAttachment()] returns true exactly when the attachments
    collection is not null; a collection that is present counts, also when
    it holds no entry. *)
Theorem hasAttachment_iff_not_null st attachments :
  self st !! "attachments" = Some attachments ->
  exists b,
    hasAttachment st = (Return b, st) /\
    (b = true <-> attachments <> VNone) /\
    (forall c fields, attachments = VObj c fields -> b = true).
Proof.
  intros H. exists (negb (is_None attachments)).
  unfold hasAttachment. rewrite (bind_Return _ _ _ _ _ (self_get_Some _ _ _ H)).
  destruct attachments; simpl; repeat split; try easy; try discriminate.
Qed.

Lemma hasAttachment_iff_not_null_witness :
  exists b,
    hasAttachment empty_attachments_state = (Return b, empty_attachments_state) /\
    (b = true <-> VObj Compound [("TestRunAttachment", VList [])] <> VNone) /\
    (forall c fields,
        VObj Compound [("TestRunAttachment", VList [])] = VObj c fields -> b = true).
Proof.
  apply (hasAttachment_iff_not_null empty_attachments_state
           (VObj Compound [("TestRunAttachment", VList [])])).
  vm_compute. reflexivity.
Defined.

(** C8: [setComment(text)] stores the text, wrapped as rich content, under
    [comment]; every other attribute of the record keeps its value, and no
    call is made: neither a save nor any other service call. *)
Theorem setComment_is_local st comment polarion :
  self st !! "_polarion" = Some polarion ->
  (setComment comment st).1 = Return tt /\
  self (setComment comment st).2 !! "comment"
    = Some (TextType comment "text/html" false) /\
  (forall name, name <> "comment" ->
     self (setComment comment st).2 !! name = self st !! name) /\
  trace (setComment comment st).2 = trace st /\
  world (setComment comment st).2 = world st.
Proof.
  intros H. unfold setComment, polarion_make.
  rewrite (bind_Return _ _ _ _ _
             (bind_Return _ _ _ _ _ (self_get_Some _ _ _ H))).
  simpl. repeat split.
  - apply lookup_insert_eq.
  - intros name Hn. now apply lookup_insert_ne.
Qed.

Lemma setComment_is_local_witness :
  (setComment (VStr "<b>ok</b>") sample_state).1 = Return tt /\
  self (setComment (VStr "<b>ok</b>") sample_state).2 !! "comment"
    = Some (TextType (VStr "<b>ok</b>") "text/html" false) /\
  (forall name, name <> "comment" ->
     self (setComment (VStr "<b>ok</b>") sample_state).2 !! name
       = self sample_state !! name) /\
  trace (setComment (VStr "<b>ok</b>") sample_state).2 = trace sample_state /\
  world (setComment (VStr "<b>ok</b>") sample_state).2 = world sample_state.
Proof.
  apply (setComment_is_local sample_state (VStr "<b>ok</b>") sample_polarion).
  vm_compute. reflexivity.
Defined.

(** *** The search for the attachment *)

Lemma find_url_app file_name l1 l2 url :
  find_url file_name (l1 ++ l2) url =
  obind (find_url file_name l1 url) (find_url file_name l2).
Proof.
  revert url. induction l1 as [|a l1 IH]; intros url; simpl; [reflexivity|].
  destruct (getattr a "fileName") as [fn|e]; simpl; [|reflexivity].
  destruct (eq_str fn file_name); [|apply IH].
  destruct (getattr a "url") as [u|e]; simpl; [apply IH | reflexivity].
Qed.

Lemma find_url_not_named file_name l url :
  Forall (entry_not_named file_name) l -> find_url file_name l url = Return url.
Proof.
  induction 1 as [|a l (fn & Hfn & Hne) _ IH]; simpl; [reflexivity|].
  rewrite Hfn. simpl. now rewrite Hne.
Qed.

Lemma find_url_ok file_name l url :
  Forall entry_ok l -> exists u, find_url file_name l url = Return u.
Proof.
  intros H. revert url.
  induction H as [|a l ((fn & Hfn) & (u & Hu)) _ IH]; intros url; simpl.
  - now exists url.
  - rewrite Hfn, Hu. simpl. destruct (eq_str fn file_name); apply IH.
Qed.

(** The candidate the loop ends with is the url of the last entry that
    bears the name. *)
Lemma find_url_last file_name pre a post url url0 :
  Forall entry_ok pre ->
  entry_named file_name a -> getattr a "url" = Return url ->
  Forall (entry_not_named file_name) post ->
  find_url file_name (pre ++ a :: post) url0 = Return url.
Proof.
  intros Hpre (fn & Hfn & Heq) Hu Hpost.
  rewrite find_url_app.
  destruct (find_url_ok file_name pre url0 Hpre) as [u0 ->]. simpl.
  rewrite Hfn. simpl. rewrite Heq, Hu. simpl.
  now apply find_url_not_named.
Qed.

(** Once the search has settled on [url], [getAttachment] is the
    authenticated fetch of [url] and the test of its status. *)
Lemma getAttachment_fetches st file_name attachments entries url polarion user password :
  self st !! "attachments" = Some attachments ->
  getattr attachments "TestRunAttachment" = Return (VList entries) ->
  find_url file_name entries VNone = Return url -> url <> VNone ->
  self st !! "_polarion" = Some polarion ->
  getattr polarion "user" = Return user ->
  getattr polarion "password" = Return password ->
  getAttachment file_name st =
  (resp <~ perform (requests_get url (user, password)) ;;
   ok <~ lift (getattr resp "ok") ;;
   if eq_True ok
   then lift (getattr resp "content")
   else raise (download_failed file_name)) st.
Proof.
  intros Ha Hl Hf Hn Hp Hu Hpw. unfold getAttachment.
  rewrite (bind_Return _ _ _ _ _ (self_get_Some _ _ _ Ha)).
  rewrite Hl. simpl obind. unfold bind at 1, lift at 1.
  rewrite Hf. unfold bind at 1, lift at 1.
  destruct url; try congruence; cbn [negb is_None];
    rewrite (bind_Return _ _ _ _ _ (self_get_Some _ _ _ Hp));
    rewrite Hu; unfold bind at 1, lift at 1;
    rewrite (bind_Return _ _ _ _ _ (self_get_Some _ _ _ Hp));
    rewrite Hpw; unfold bind at 1, lift at 1; reflexivity.
Qed.

(** C5 (as amended): with the attachments collection holding [entries],
    each with a file name and a url: if no entry bears the file name,
    [getAttachment] raises the not-found exception; if one does, and the
    last that does has a url that is not null, then, when the authenticated
    fetch of that url answers with a status that is not ok, it raises the
    download exception, and when the status is ok, it returns the content
    of the response. *)
Theorem getAttachment_outcomes st file_name attachments entries :
  self st !! "attachments" = Some attachments ->
  getattr attachments "TestRunAttachment" = Return (VList entries) ->
  (Forall (entry_not_named file_name) entries ->
   getAttachment file_name st = (Raise (not_found file_name), st)) /\
  (forall pre a post url polarion user password resp ok,
     entries = pre ++ a :: post ->
     Forall entry_ok pre ->
     entry_named file_name a -> getattr a "url" = Return url -> url <> VNone ->
     Forall (entry_not_named file_name) post ->
     self st !! "_polarion" = Some polarion ->
     getattr polarion "user" = Return user ->
     getattr polarion "password" = Return password ->
     world st (trace st) (requests_get url (user, password)) = Return resp ->
     getattr resp "ok" = Return ok ->
     let st' := mkState (self st)
                  (trace st ++ [(requests_get url (user, password), Return resp)])
                  (world st) in
     (eq_True ok = false ->
      getAttachment file_name st = (Raise (download_failed file_name), st')) /\
     (forall content,
        eq_True ok = true -> getattr resp "content" = Return content ->
        getAttachment file_name st = (Return content, st'))).
Proof.
  intros Ha Hl. split.
  - intros Hno. unfold getAttachment.
    rewrite (bind_Return _ _ _ _ _ (self_get_Some _ _ _ Ha)).
    rewrite Hl. simpl obind. unfold bind at 1, lift at 1.
    rewrite (find_url_not_named _ _ _ Hno). reflexivity.
  - intros pre a post url polarion user password resp ok
      -> Hpre Hnamed Hurl Hnn Hpost Hp Hu Hpw Hresp Hok st'.
    pose proof (find_url_last file_name pre a post url VNone Hpre Hnamed Hurl Hpost)
      as Hfind.
    rewrite (getAttachment_fetches st file_name attachments _ url polarion user
               password Ha Hl Hfind Hnn Hp Hu Hpw).
    split; [intros Hb | intros content Hb Hc];
      unfold bind at 1, perform at 1; rewrite Hresp, Hok;
      unfold bind at 1, lift at 1; fold st'; rewrite Hb.
    + reflexivity.
    + unfold lift. now rewrite Hc.
Qed.

(** C10 (as amended): when several entries bear the file name and the last
    of them in collection order has a url that is not null, the one fetch
    that [getAttachment] makes goes to the url of that last entry: entries
    before it, bearing the name or not, do not matter. *)
Theorem getAttachment_fetches_last_match
    st file_name attachments pre a post url polarion user password :
  self st !! "attachments" = Some attachments ->
  getattr attachments "TestRunAttachment" = Return (VList (pre ++ a :: post)) ->
  Forall entry_ok pre ->
  entry_named file_name a -> getattr a "url" = Return url -> url <> VNone ->
  Forall (entry_not_named file_name) post ->
  self st !! "_polarion" = Some polarion ->
  getattr polarion "user" = Return user ->
  getattr polarion "password" = Return password ->
  trace (getAttachment file_name st).2 =
  trace st ++ [(requests_get url (user, password),
                world st (trace st) (requests_get url (user, password)))].
Proof.
  intros Ha Hl Hpre Hnamed Hurl Hnn Hpost Hp Hu Hpw.
  pose proof (find_url_last file_name pre a post url VNone Hpre Hnamed Hurl Hpost)
    as Hfind.
  rewrite (getAttachment_fetches st file_name attachments _ url polarion user
             password Ha Hl Hfind Hnn Hp Hu Hpw).
  unfold bind at 1, perform at 1.
  destruct (world st (trace st) _) as [resp|e]; [|reflexivity].
  unfold bind at 1, lift at 1.
  destruct (getattr resp "ok") as [ok|e]; [|reflexivity].
  destruct (eq_True ok); [|reflexivity].
  unfold lift. reflexivity.
Qed.

Ltac entries_tac :=
  repeat match goal with
    | |- Forall _ [] => constructor
    | |- Forall _ (_ :: _) => constructor
    | |- entry_named _ _ => eexists; split; reflexivity
    | |- entry_not_named _ _ => eexists; split; reflexivity
    | |- entry_ok _ => split; eexists; reflexivity
    end.

Lemma attachments_state_attachments :
  self attachments_state !! "attachments" = Some sample_attachments.
Proof. vm_compute. reflexivity. Qed.

Lemma offline_state_attachments :
  self offline_state !! "attachments" = Some sample_attachments.
Proof. vm_compute. reflexivity. Qed.

Lemma getAttachment_outcomes_witness :
  getAttachment "missing.txt" attachments_state
    = (Raise (not_found "missing.txt"), attachments_state) /\
  getAttachment "log.txt" offline_state
    = (Raise (download_failed "log.txt"),
       mkState (self offline_state)
         (trace offline_state ++
            [(requests_get (VStr "http://polarion/att/3") (VStr "admin", VStr "secret"),
              Return (VObj Plain [("ok", VBool false); ("content", VBytes "")]))])
         (world offline_state)) /\
  getAttachment "log.txt" attachments_state
    = (Return (VBytes "data"),
       mkState (self attachments_state)
         (trace attachments_state ++
            [(requests_get (VStr "http://polarion/att/3") (VStr "admin", VStr "secret"),
              Return (VObj Plain [("ok", VBool true); ("content", VBytes "data")]))])
         (world attachments_state)).
Proof.
  split; [|split].
  - apply (proj1 (getAttachment_outcomes attachments_state "missing.txt"
                    sample_attachments _ attachments_state_attachments eq_refl)).
    entries_tac.
  - refine (proj1 (proj2 (getAttachment_outcomes offline_state "log.txt"
                    sample_attachments _ offline_state_attachments eq_refl)
              [TestRunAttachment (VStr "log.txt") (VStr "http://polarion/att/1");
               TestRunAttachment (VStr "trace.bin") (VStr "http://polarion/att/2")]
              (TestRunAttachment (VStr "log.txt") (VStr "http://polarion/att/3"))
              [] (VStr "http://polarion/att/3") sample_polarion
              (VStr "admin") (VStr "secret")
              (VObj Plain [("ok", VBool false); ("content", VBytes "")])
              (VBool false) eq_refl _ _ eq_refl _ _ _ eq_refl eq_refl eq_refl eq_refl) eq_refl);
      try (vm_compute; reflexivity); try discriminate; entries_tac.
  - refine (proj2 (proj2 (getAttachment_outcomes attachments_state "log.txt"
                    sample_attachments _ attachments_state_attachments eq_refl)
              [TestRunAttachment (VStr "log.txt") (VStr "http://polarion/att/1");
               TestRunAttachment (VStr "trace.bin") (VStr "http://polarion/att/2")]
              (TestRunAttachment (VStr "log.txt") (VStr "http://polarion/att/3"))
              [] (VStr "http://polarion/att/3") sample_polarion
              (VStr "admin") (VStr "secret")
              (VObj Plain [("ok", VBool true); ("content", VBytes "data")])
              (VBool true) eq_refl _ _ eq_refl _ _ _ eq_refl eq_refl eq_refl eq_refl)
              (VBytes "data") eq_refl eq_refl);
      try (vm_compute; reflexivity); try discriminate; entries_tac.
Defined.

(** C5 (as stated) fails: an entry bears the file name, yet
    [getAttachment] raises the exception that reports a missing attachment,
    and fetches nothing, because the url of that entry is null -- in a world
    where every fetch would have been answered with an ok status. *)
Lemma getAttachment_match_without_url :
  self no_url_state !! "attachments"
    = Some (VObj Compound [("TestRunAttachment",
              VList [TestRunAttachment (VStr "log.txt") VNone])]) /\
  entry_named "log.txt" (TestRunAttachment (VStr "log.txt") VNone) /\
  (forall tr url auth,
     obind (world no_url_state tr (requests_get url auth)) (fun resp => getattr resp "ok")
       = Return (VBool true)) /\
  getAttachment "log.txt" no_url_state = (Raise (not_found "log.txt"), no_url_state).
Proof.
  split; [vm_compute; reflexivity|]. split; [entries_tac|].
  split; [reflexivity|]. vm_compute. reflexivity.
Qed.

Lemma getAttachment_fetches_last_match_witness :
  trace (getAttachment "log.txt" attachments_state).2 =
  trace attachments_state ++
    [(requests_get (VStr "http://polarion/att/3") (VStr "admin", VStr "secret"),
      world attachments_state (trace attachments_state)
        (requests_get (VStr "http://polarion/att/3") (VStr "admin", VStr "secret")))].
Proof.
  refine (getAttachment_fetches_last_match attachments_state "log.txt"
            sample_attachments
            [TestRunAttachment (VStr "log.txt") (VStr "http://polarion/att/1");
             TestRunAttachment (VStr "trace.bin") (VStr "http://polarion/att/2")]
            (TestRunAttachment (VStr "log.txt") (VStr "http://polarion/att/3"))
            [] (VStr "http://polarion/att/3") sample_polarion
            (VStr "admin") (VStr "secret")
            attachments_state_attachments eq_refl _ _ eq_refl _ _ _ eq_refl eq_refl);
    try (vm_compute; reflexivity); try discriminate; entries_tac.
Defined.

(** C10 (as stated) fails: two entries bear the file name, the first with
    a url, the last with a null url; [getAttachment] makes no fetch at
    all -- neither from the last matching entry nor from the first -- and
    raises the exception that reports a missing attachment. *)
Lemma getAttachment_last_match_without_url :
  self null_last_state !! "attachments" = Some null_last_attachments /\
  getattr null_last_attachments "TestRunAttachment"
    = Return (VList [TestRunAttachment (VStr "log.txt") (VStr "http://polarion/att/1");
                     TestRunAttachment (VStr "log.txt") VNone]) /\
  entry_named "log.txt"
    (TestRunAttachment (VStr "log.txt") (VStr "http://polarion/att/1")) /\
  entry_named "log.txt" (TestRunAttachment (VStr "log.txt") VNone) /\
  trace (getAttachment "log.txt" null_last_state).2 = trace null_last_state /\
  (getAttachment "log.txt" null_last_state).1 = Raise (not_found "log.txt").
Proof.
  split; [vm_compute; reflexivity|]. split; [reflexivity|].
  split; [entries_tac|]. split; [entries_tac|].
  split; vm_compute; reflexivity.
Qed.

(** ** Building the projection from a compound payload *)

Lemma keys_assoc k m : In k (keys m) <-> assoc k m <> None.
Proof.
  induction m as [|[k0 v0] m IH]; simpl.
  - split; [intros [] | congruence].
  - destruct (String.eqb_spec k0 k) as [->|Hne].
    + split; [discriminate | now left].
    + rewrite <- IH. split.
      * intros [H|H]; [congruence|]. apply filter_In in H. tauto.
      * intros H. right. apply filter_In. split; [exact H|].
        apply Bool.negb_true_iff. now apply String.eqb_neq.
Qed.

Lemma project_fields_notin ks fields d name :
  ~ In name ks -> project_fields ks fields d !! name = d !! name.
Proof.
  revert d. induction ks as [|k ks IH]; intros d Hn; simpl; [reflexivity|].
  unfold project_fields in *. simpl. rewrite IH by (intros H; apply Hn; now right).
  destruct (assoc k fields); [|reflexivity].
  apply lookup_insert_ne. intros ->. apply Hn. now left.
Qed.

Lemma project_fields_in ks fields d name v :
  In name ks -> assoc name fields = Some v ->
  project_fields ks fields d !! name = Some v.
Proof.
  revert d. induction ks as [|k ks IH]; intros d Hin Hv; [destruct Hin|].
  change (project_fields (k :: ks) fields d)
    with (project_fields ks fields
            (match assoc k fields with Some v => <[k:=v]> d | None => d end)).
  destruct (in_dec string_dec name ks) as [Hk|Hk]; [now apply IH|].
  rewrite project_fields_notin by exact Hk.
  destruct Hin as [->|Hin]; [|contradiction].
  rewrite Hv. apply lookup_insert_eq.
Qed.

Lemma project_fields_lookup fields d name :
  project_fields (keys fields) fields d !! name =
  match assoc name fields with
  | Some v => Some v
  | None => d !! name
  end.
Proof.
  destruct (assoc name fields) as [v|] eqn:E.
  - apply project_fields_in; [|exact E]. apply keys_assoc. congruence.
  - apply project_fields_notin. rewrite keys_assoc. congruence.
Qed.

(** An attribute name the class does not keep for itself is a key of the
    instance dictionary like any other. *)
Lemma self_setattr_ordinary name v :
  name <> "__class__" -> name <> "__dict__" -> name <> "__weakref__" ->
  self_setattr (VStr name) v = self_set name v.
Proof.
  intros H1 H2 H3. unfold self_setattr.
  apply String.eqb_neq in H1, H2, H3. now rewrite H1, H2, H3.
Qed.

Lemma ordinary_fields_name fields name :
  ordinary_fields fields -> assoc name fields <> None ->
  name <> "__class__" /\ name <> "__dict__" /\ name <> "__weakref__".
Proof. intros (H1 & H2 & H3) Hn. repeat split; intros ->; contradiction. Qed.

Lemma project_keys ks fields st :
  ordinary_fields fields ->
  (forall k, In k ks -> assoc k fields <> None) ->
  for_each (map VStr ks) (fun key =>
    v <~ lift (getitem (VDict fields) key) ;; self_setattr key v) st =
  (Return tt, mkState (project_fields ks fields (self st)) (trace st) (world st)).
Proof.
  intros Hord. revert st. induction ks as [|k ks IH]; intros st Hk.
  - now destruct st.
  - simpl map. cbn [for_each].
    destruct (assoc k fields) as [v|] eqn:E.
    2:{ exfalso. apply (Hk k); [now left | exact E]. }
    destruct (ordinary_fields_name fields k Hord) as (H1 & H2 & H3);
      [congruence|].
    unfold bind at 1. unfold bind at 1. unfold lift. simpl getitem. rewrite E.
    rewrite (self_setattr_ordinary k v H1 H2 H3).
    simpl. rewrite IH by (intros k' H'; apply Hk; now right).
    simpl. unfold project_fields. simpl. now rewrite E.
Qed.

(** Projecting the fields of a compound value with ordinary field names
    cannot fail. *)
Lemma project_mapping_dict fields st :
  ordinary_fields fields ->
  project_mapping (VDict fields) st =
  (Return tt,
   mkState (project_fields (keys fields) fields (self st)) (trace st) (world st)).
Proof.
  intros Hord. unfold project_mapping. unfold bind at 1, lift at 1. simpl iter.
  apply project_keys; [exact Hord|]. intros k. apply keys_assoc.
Qed.

Lemma build_compound st fields :
  self st !! "_polarion_record" = Some (VObj Compound fields) ->
  ordinary_fields fields ->
  _buildWorkitemFromPolarion st =
  derive_references
    (mkState (project_fields (keys fields) fields (self st)) (trace st) (world st)).
Proof.
  intros H Hord. unfold _buildWorkitemFromPolarion.
  rewrite (bind_Return _ _ _ _ _ (self_get_Some _ _ _ H)).
  unfold bind at 1, lift at 1. simpl obj_dict. cbv iota.
  unfold bind at 1. cbn [for_each]. unfold bind at 1.
  rewrite (project_mapping_dict _ _ Hord). reflexivity.
Qed.

(** *** Splitting the reference *)

Lemma split_no_sep sep s : has_char sep s = false -> split sep s = [s].
Proof.
  induction s as [|c s IH]; simpl; [reflexivity|].
  intros H. apply Bool.orb_false_iff in H as [H1 H2].
  rewrite H1, (IH H2). reflexivity.
Qed.

Lemma split_at_sep sep pre rest :
  has_char sep pre = false ->
  split sep (pre +:+ String sep rest) = pre :: split sep rest.
Proof.
  induction pre as [|c pre IH]; simpl.
  - intros _. now rewrite Ascii.eqb_refl.
  - intros H. apply Bool.orb_false_iff in H as [H1 H2].
    rewrite H1, (IH H2). reflexivity.
Qed.

Lemma derive_references_ok st polarion_record reference name defectURI :
  self st !! "_polarion_record" = Some polarion_record ->
  getattr polarion_record "testCaseURI" = Return (VStr reference) ->
  seq_getitem (split "}" reference) 1 = Return name ->
  getattr polarion_record "defectURI" = Return defectURI ->
  derive_references st =
  (Return tt,
   mkState (<["_defect":=defectURI]>
              (<["_testcase_name":=VStr name]>
                 (<["_testcase":=VStr reference]> (self st))))
     (trace st) (world st)).
Proof.
  intros Hr Hu Hn Hd. unfold derive_references.
  rewrite (bind_Return _ _ _ _ _ (self_get_Some _ _ _ Hr)).
  rewrite Hu. unfold bind at 1, lift at 1.
  unfold bind at 1, self_set at 1.
  unfold bind at 1, self_get at 1. cbn [self]. rewrite lookup_insert_eq.
  cbn [method_split]. unfold bind at 1, lift at 1.
  rewrite Hn. unfold bind at 1, lift at 1.
  unfold bind at 1, self_set at 1.
  unfold bind at 1, self_get at 1. cbn [self].
  rewrite !lookup_insert_ne by discriminate. rewrite Hr.
  rewrite Hd. unfold bind at 1, lift at 1. reflexivity.
Qed.

Lemma derive_references_malformed st polarion_record :
  self st !! "_polarion_record" = Some polarion_record ->
  match getattr polarion_record "testCaseURI" with
  | Return (VStr reference) => has_char "}" reference = false
  | _ => True
  end ->
  exists e st', derive_references st = (Raise e, st') /\ MalformedReference e.
Proof.
  intros Hr Hm. unfold derive_references, MalformedReference.
  rewrite (bind_Return _ _ _ _ _ (self_get_Some _ _ _ Hr)).
  destruct (getattr polarion_record "testCaseURI") as [v|e] eqn:E.
  2:{ unfold bind at 1, lift at 1. do 2 eexists. split; [reflexivity|].
      left. unfold getattr in E. destruct polarion_record; try congruence.
      destruct (assoc _ _); congruence. }
  unfold bind at 1, lift at 1.
  unfold bind at 1, self_set at 1.
  unfold bind at 1, self_get at 1. cbn [self]. rewrite lookup_insert_eq.
  destruct v; cbn [method_split]; unfold bind at 1, lift at 1;
    try (do 2 eexists; split; [reflexivity | tauto]).
  - rewrite (split_no_sep _ _ Hm). cbn. do 2 eexists. split; [reflexivity | tauto].
  - destruct (assoc "split" fields); do 2 eexists; (split; [reflexivity | tauto]).
Qed.

(** The attributes the build step leaves, for a payload with ordinary
    field names that could be built. *)
Lemma built_lookup st fields reference name defectURI attr :
  ~ cache_name attr ->
  <["_defect":=defectURI]>
    (<["_testcase_name":=VStr name]>
       (<["_testcase":=VStr reference]>
          (project_fields (keys fields) fields (self st)))) !! attr
  = match assoc attr fields with
    | Some v => Some v
    | None => self st !! attr
    end.
Proof.
  intros Hc. unfold cache_name in Hc.
  rewrite !lookup_insert_ne by (intros <-; tauto).
  apply project_fields_lookup.
Qed.

(** C6 (as amended): for a compound payload whose field names are ordinary
    (none is [__class__], [__dict__] or [__weakref__]) and that does not
    carry a field named [_polarion_record]: if its testcase reference is a
    namespace, the closing brace, and a name (as in ["{ns}Proj/TC-123"]),
    and it carries a defect reference, the build step succeeds and, unless
    an attribute or a payload field named [getTestCaseName] hides the
    method, [getTestCaseName()] returns the name; if its testcase reference
    is absent or cannot be parsed, the build step raises, with one of the
    exceptions that signal a malformed reference. *)
Theorem testcase_name_derivation st fields :
  self st !! "_polarion_record" = Some (VObj Compound fields) ->
  ordinary_fields fields ->
  assoc "_polarion_record" fields = None ->
  (forall ns name defectURI,
     assoc "testCaseURI" fields = Some (VStr (ns +:+ "}" +:+ name)) ->
     has_char "}" ns = false -> has_char "}" name = false ->
     assoc "defectURI" fields = Some defectURI ->
     assoc "getTestCaseName" fields = None ->
     self st !! "getTestCaseName" = None ->
     exists st',
       _buildWorkitemFromPolarion st = (Return tt, st') /\
       invoke "getTestCaseName" getTestCaseName st' = (Return (VStr name), st')) /\
  (unparsable (assoc "testCaseURI" fields) ->
   exists e st',
     _buildWorkitemFromPolarion st = (Raise e, st') /\ MalformedReference e).
Proof.
  intros Hrec Hord Hnone.
  pose (st1 := mkState (project_fields (keys fields) fields (self st))
                 (trace st) (world st)).
  assert (Hrec1 : self st1 !! "_polarion_record" = Some (VObj Compound fields)).
  { simpl. now rewrite project_fields_lookup, Hnone. }
  rewrite (build_compound st fields Hrec Hord). fold st1. split.
  - intros ns name defectURI Hu Hns Hname Hd Hf Hs.
    eexists. split.
    + apply (derive_references_ok st1 (VObj Compound fields)
               (ns +:+ "}" +:+ name) name defectURI Hrec1).
      * simpl. now rewrite Hu.
      * change ("}" +:+ name) with (String "}" name).
        rewrite (split_at_sep _ _ _ Hns), (split_no_sep _ _ Hname). reflexivity.
      * simpl. now rewrite Hd.
    + rewrite invoke_None.
      * unfold getTestCaseName. apply self_get_Some. simpl.
        rewrite lookup_insert_ne by discriminate. apply lookup_insert_eq.
      * cbn [self st1]. rewrite built_lookup, Hf; [exact Hs|].
        unfold cache_name. intros [H|[H|H]]; discriminate.
  - intros Hun. apply (derive_references_malformed st1 _ Hrec1).
    simpl. unfold unparsable in Hun.
    destruct (assoc "testCaseURI" fields) as [[]|]; auto.
Qed.

Lemma sample_fields_ordinary : ordinary_fields sample_fields.
Proof. repeat split. Qed.

Lemma testcase_name_derivation_witness :
  (exists st',
     _buildWorkitemFromPolarion (holding sample_record) = (Return tt, st') /\
     invoke "getTestCaseName" getTestCaseName st'
       = (Return (VStr "Proj/TC-123"), st')) /\
  (exists e st',
     _buildWorkitemFromPolarion (holding unbraced_record) = (Raise e, st') /\
     MalformedReference e).
Proof.
  split.
  - exact (proj1 (testcase_name_derivation (holding sample_record) sample_fields
                    eq_refl sample_fields_ordinary eq_refl)
             "{ns" "Proj/TC-123" VNone eq_refl eq_refl eq_refl eq_refl eq_refl eq_refl).
  - exact (proj2 (testcase_name_derivation (holding unbraced_record)
                    (assoc_set "testCaseURI" (VStr "Proj/TC-123") sample_fields)
                    eq_refl (conj eq_refl (conj eq_refl eq_refl)) eq_refl) eq_refl).
Defined.

(** C6 (as stated) fails: a payload whose testcase reference is
    ["{ns}Proj/TC-123"], but which carries a field named
    [_polarion_record], builds a projection named after the record that
    field holds. *)
Lemma testcase_name_shadowed :
  getattr shadowing_record "testCaseURI" = Return (VStr "{ns}Proj/TC-123") /\
  (__init__ sample_polarion sample_test_run shadowing_record (VInt 0)
     (new_state (fixed_world sample_record))).1 = Return tt /\
  (getTestCaseName (constructed (fixed_world sample_record) shadowing_record)).1
    = Return (VStr "Other/TC-9").
Proof. vm_compute. repeat split. Qed.

(** The other fields the amended claim excludes: a payload with that same
    reference and a field named [__class__] cannot be built, and one with a
    field named [getTestCaseName] builds a projection whose method of that
    name can no longer be called. *)
Lemma testcase_name_unreachable :
  getattr (with_field "__class__" VNone sample_record) "testCaseURI"
    = Return (VStr "{ns}Proj/TC-123") /\
  (_buildWorkitemFromPolarion
     (holding (with_field "__class__" VNone sample_record))).1 = Raise TypeError /\
  (_buildWorkitemFromPolarion
     (holding (with_field "getTestCaseName" VNone sample_record))).1 = Return tt /\
  (invoke "getTestCaseName" getTestCaseName
     (_buildWorkitemFromPolarion
        (holding (with_field "getTestCaseName" VNone sample_record))).2).1
    = Raise TypeError.
Proof. vm_compute. repeat split. Qed.

(** ** Setting the result *)

Lemma bind_inv {A B} (m : M A) (k : A -> M B) st b st2 :
  bind m k st = (Return b, st2) ->
  exists a st1, m st = (Return a, st1) /\ k a st1 = (Return b, st2).
Proof.
  unfold bind. destruct (m st) as [[a|e] st1]; [eauto | discriminate].
Qed.

Lemma self_get_inv name st v st1 :
  self_get name st = (Return v, st1) -> st1 = st /\ self st !! name = Some v.
Proof.
  unfold self_get. destruct (self st !! name); intros [= <- <-]; auto.
Qed.

Lemma lift_inv {A} (o : outcome A) st a st1 :
  lift o st = (Return a, st1) -> st1 = st /\ o = Return a.
Proof. unfold lift. intros [= -> <-]. auto. Qed.

Lemma perform_inv c st v st1 :
  perform c st = (Return v, st1) ->
  st1 = mkState (self st) (trace st ++ [(c, Return v)]) (world st).
Proof. unfold perform. intros [= H <-]. now rewrite H. Qed.

Lemma invoke_inv {A} name (m : M A) st a st2 :
  invoke name m st = (Return a, st2) ->
  self st !! name = None /\ m st = (Return a, st2).
Proof. unfold invoke. destruct (self st !! name); [discriminate | auto]. Qed.

(** The build step makes no call. *)
Lemma build_trace st : trace (_buildWorkitemFromPolarion st).2 = trace st.
Proof.
  apply (build_keeps (fun s => trace s = trace st) (fun _ => True)); auto.
  - now intros s name v _ H.
  - now intros _ s d H.
  - split; [reflexivity|]. now intros rec k _ _.
Qed.

(** A field of a compound payload that is no private cache of the record
    is, after the build, an attribute of the record. *)
Lemma build_compound_field st fields name v :
  self st !! "_polarion_record" = Some (VObj Compound fields) ->
  ordinary_fields fields ->
  assoc name fields = Some v ->
  name <> "_testcase" -> name <> "_testcase_name" -> name <> "_defect" ->
  self (_buildWorkitemFromPolarion st).2 !! name = Some v.
Proof.
  intros Hrec Hord Hv H1 H2 H3. rewrite (build_compound st fields Hrec Hord).
  set (st1 := mkState _ _ _).
  assert (Hk : keeps (fun s => self s !! name = Some v) derive_references).
  { assert (Hs : self_stable (fun s => self s !! name = Some v)
                   (fun n => n <> name)).
    { intros s n x Hn H. simpl. now rewrite lookup_insert_ne. }
    unfold derive_references. keeps_auto. }
  apply Hk. unfold st1. simpl. now rewrite project_fields_lookup, Hv.
Qed.

(** An attribute the payload has no field for, and which is no private
    cache, is left alone by the build. *)
Lemma build_compound_absent st fields name :
  self st !! "_polarion_record" = Some (VObj Compound fields) ->
  ordinary_fields fields ->
  assoc name fields = None -> ~ cache_name name ->
  self (_buildWorkitemFromPolarion st).2 !! name = self st !! name.
Proof.
  intros Hrec Hord Hv Hc. rewrite (build_compound st fields Hrec Hord).
  set (st1 := mkState _ _ _).
  assert (Hk : keeps (fun s => self s !! name = self st !! name) derive_references).
  { assert (Hs : self_stable (fun s => self s !! name = self st !! name)
                   (fun n => n <> name)).
    { intros s n x Hn H. simpl. now rewrite lookup_insert_ne. }
    assert (name <> "_testcase" /\ name <> "_testcase_name" /\ name <> "_defect")
      as (H1 & H2 & H3) by (unfold cache_name in Hc; repeat split; intros ->; tauto).
    unfold derive_references. keeps_auto. }
  apply Hk. unfold st1. simpl. now rewrite project_fields_lookup, Hv.
Qed.

Lemma build_compound_lookup st fields name :
  self st !! "_polarion_record" = Some (VObj Compound fields) ->
  ordinary_fields fields -> ~ cache_name name ->
  self (_buildWorkitemFromPolarion st).2 !! name
  = match assoc name fields with
    | Some v => Some v
    | None => self st !! name
    end.
Proof.
  intros Hrec Hord Hc. destruct (assoc name fields) as [v|] eqn:E.
  - apply (build_compound_field st fields name v Hrec Hord E);
      intros ->; apply Hc; unfold cache_name; tauto.
  - now apply (build_compound_absent st fields).
Qed.

(** A reload that returns ends with the service's answer to
    [getTestCaseRecords], the first record of which the projection was
    rebuilt from: when that record is a compound value with ordinary field
    names, its fields are the attributes of those names, and the other
    attributes are what they were. *)
Lemma reload_returns st st2 :
  _reloadFromPolarion st = (Return tt, st2) ->
  exists service uri testcase records record,
    last (trace st2) = Some (getTestCaseRecords service uri testcase, Return records) /\
    getitem records (VInt 0) = Return record /\
    forall fields name,
      record = VObj Compound fields -> ordinary_fields fields ->
      ~ cache_name name -> name <> "_polarion_record" ->
      self st2 !! name = match assoc name fields with
                         | Some v => Some v
                         | None => self st !! name
                         end.
Proof.
  unfold _reloadFromPolarion. intros H.
  apply bind_inv in H as (polarion & s1 & H1 & H).
  apply self_get_inv in H1 as [-> _].
  apply bind_inv in H as (service & s2 & H2 & H).
  apply perform_inv in H2. subst s2.
  apply bind_inv in H as (test_run & s3 & H3 & H).
  apply self_get_inv in H3 as [-> _].
  apply bind_inv in H as (uri & s4 & H4 & H).
  apply lift_inv in H4 as [-> _].
  apply bind_inv in H as (testcase & s5 & H5 & H).
  apply self_get_inv in H5 as [-> _].
  apply bind_inv in H as (records & s6 & H6 & H).
  apply perform_inv in H6. subst s6.
  apply bind_inv in H as (record & s7 & H7 & H).
  apply lift_inv in H7 as [-> Hrec].
  apply bind_inv in H as ([] & s8 & H8 & H).
  unfold self_set in H8. injection H8 as <-.
  apply invoke_inv in H as [_ H]. cbn [self trace world] in H.
  exists service, uri, testcase, records, record.
  match type of H with _buildWorkitemFromPolarion ?s = _ => set (s0 := s) in * end.
  pose proof (build_trace s0) as Htr.
  rewrite H in Htr. simpl in Htr. split; [|split].
  - rewrite Htr. apply last_snoc.
  - exact Hrec.
  - intros fields name -> Hord Hc Hn.
    pose proof (build_compound_lookup s0 fields name) as Hb.
    rewrite H in Hb. cbn [snd] in Hb. rewrite Hb; auto.
    + unfold s0. cbn [self]. now rewrite lookup_insert_ne.
    + apply lookup_insert_eq.
Qed.

Lemma save_returns st st2 :
  save st = (Return tt, st2) ->
  exists st1, self st1 = self st /\ _reloadFromPolarion st1 = (Return tt, st2).
Proof.
  unfold save. intros H.
  apply bind_inv in H as (new_item & s0 & H0 & H). injection H0 as <- <-.
  apply bind_inv in H as (polarion & s1 & H1 & H).
  apply self_get_inv in H1 as [-> _].
  apply bind_inv in H as (service & s2 & H2 & H).
  apply perform_inv in H2. subst s2.
  apply bind_inv in H as (test_run & s3 & H3 & H).
  apply self_get_inv in H3 as [-> _].
  apply bind_inv in H as (uri & s4 & H4 & H).
  apply lift_inv in H4 as [-> _].
  apply bind_inv in H as (written & s5 & H5 & H).
  apply perform_inv in H5. subst s5.
  apply invoke_inv in H as [_ H]. eexists. split; [|exact H]. reflexivity.
Qed.

Lemma getResult_of_holder st holder id r :
  self st !! "result" = Some holder ->
  self st !! "ResultType" = None ->
  getattr holder "id" = Return id -> ResultType_call id = Return r ->
  getResult st = (Return (Member r), st).
Proof.
  intros Hh Ht Hid Hr. unfold getResult.
  rewrite (bind_Return _ _ _ _ _ (self_get_Some _ _ _ Hh)).
  destruct holder; try discriminate. cbn [negb is_None].
  unfold bind at 1, self_ResultType at 1. rewrite Ht.
  rewrite (bind_Return _ _ _ _ _ (self_get_Some _ _ _ Hh)).
  rewrite Hid. unfold bind, lift, ret. now rewrite Hr.
Qed.

Lemma getattr_assoc_set c fields name v :
  getattr (VObj c (assoc_set name v fields)) name = Return v.
Proof.
  simpl. induction fields as [|[k x] fields IH]; simpl.
  - now rewrite String.eqb_refl.
  - destruct (String.eqb_spec k name) as [->|Hne]; simpl.
    + now rewrite String.eqb_refl.
    + apply String.eqb_neq in Hne. rewrite Hne. exact IH.
Qed.

(** In the model, [setResult] is the save of the record with the comment
    and the result set. *)
Lemma setResult_is_save st result comment holder polarion :
  self st !! "result" = Some holder ->
  holder = VNone \/ (exists c fields, holder = VObj c fields) ->
  self st !! "_polarion" = Some polarion ->
  (is_None comment = false -> self st !! "setComment" = None) ->
  self st !! "save" = None ->
  setResult result comment st = save (locally_set result comment holder st).
Proof.
  intros Hh Hshape Hp Hsc Hsave. unfold setResult, locally_set.
  assert (Hc : (if negb (is_None comment)
                then invoke "setComment" (setComment comment) else ret tt) st
               = (Return tt,
                  mkState (if is_None comment then self st
                           else <["comment":=TextType comment "text/html" false]> (self st))
                    (trace st) (world st))).
  { destruct (is_None comment); cbn [negb].
    - now destruct st.
    - rewrite invoke_None by auto. unfold setComment, polarion_make.
      now rewrite (bind_Return _ _ _ _ _
                     (bind_Return _ _ _ _ _ (self_get_Some _ _ _ Hp))). }
  rewrite (bind_Return _ _ _ _ _ Hc). clear Hc.
  set (st0 := mkState _ _ _).
  assert (Hother : forall name, name <> "comment" -> self st0 !! name = self st !! name).
  { intros name Hn. unfold st0. simpl. destruct (is_None comment); [reflexivity|].
    now rewrite lookup_insert_ne. }
  assert (Hh0 : self st0 !! "result" = Some holder)
    by (rewrite Hother by discriminate; exact Hh).
  assert (Hp0 : self st0 !! "_polarion" = Some polarion)
    by (rewrite Hother by discriminate; exact Hp).
  rewrite (bind_Return _ _ _ _ _ (self_get_Some _ _ _ Hh0)).
  destruct Hshape as [->|(c & fields & ->)]; cbn [negb is_None with_result_id].
  - unfold bind at 1. unfold bind at 1. unfold polarion_make.
    rewrite (bind_Return _ _ _ _ _ (self_get_Some _ _ _ Hp0)).
    cbn [ret self_set]. apply invoke_None. cbn [self].
    rewrite lookup_insert_ne by discriminate.
    rewrite Hother by discriminate. exact Hsave.
  - unfold bind at 1. unfold bind at 1.
    rewrite (self_get_Some _ _ _ Hh0).
    cbn [setattr lift self_set]. apply invoke_None. cbn [self].
    rewrite lookup_insert_ne by discriminate.
    rewrite Hother by discriminate. exact Hsave.
Qed.

Lemma save_submitted st polarion service test_run uri :
  self st !! "_polarion" = Some polarion ->
  world st (trace st) (getService polarion "TestManagement") = Return service ->
  self st !! "_test_run" = Some test_run ->
  getattr test_run "uri" = Return uri ->
  submitted (trace (save st).2) = submitted (trace st) ++ [public_items (self st)].
Proof.
  intros Hp Hs Ht Hu.
  rewrite (save_until_write st polarion service test_run uri Hp Hs Ht Hu).
  cbv zeta.
  destruct (world st (trace st ++ _) _) as [a|e] eqn:E;
    [rewrite invoke_reload_submits_nothing|]; simpl;
    change (trace st ++ [?x; ?y]) with (trace st ++ [x] ++ [y]);
    rewrite app_assoc, !submitted_snoc; now rewrite app_nil_r.
Qed.

Lemma locally_set_other result comment holder st name :
  name <> "result" -> name <> "comment" ->
  self (locally_set result comment holder st) !! name = self st !! name.
Proof.
  intros H1 H2. unfold locally_set. simpl.
  rewrite lookup_insert_ne by congruence.
  destruct (is_None comment); [reflexivity|]. now rewrite lookup_insert_ne.
Qed.

Lemma with_result_id_id id holder :
  holder = VNone \/ (exists c fields, holder = VObj c fields) ->
  getattr (with_result_id id holder) "id" = Return id.
Proof.
  intros [->|(c & fields & ->)]; [reflexivity|]. apply getattr_assoc_set.
Qed.

(** C4 (as amended): on a record whose result is null or a result holder
    and none of whose attributes hides [save], [setResult()] with no
    arguments sets the result id to FAILED -- a fresh holder when the result
    was null, the existing holder with its id replaced otherwise -- and then
    saves: when the save reaches the service, the one record it submits
    carries that holder, whose id reads FAILED.  When the call returns, the
    record has been rebuilt from what the service answered to the reload:
    [getResult()] is FAILED whenever that answer is a compound record with
    ordinary field names whose result id is FAILED, and neither a field of
    it nor an attribute of the record hides [getResult] or the
    enumeration. *)
Theorem setResult_default_sets_failed st holder polarion service test_run uri :
  self st !! "result" = Some holder ->
  holder = VNone \/ (exists c fields, holder = VObj c fields) ->
  self st !! "_polarion" = Some polarion ->
  self st !! "save" = None ->
  world st (trace st) (getService polarion "TestManagement") = Return service ->
  self st !! "_test_run" = Some test_run ->
  getattr test_run "uri" = Return uri ->
  (exists new_item,
     submitted (trace (setResult_default st).2)
       = submitted (trace st) ++ [new_item] /\
     new_item !! "result" = Some (set_failed holder) /\
     getattr (set_failed holder) "id" = Return (ResultType_value FAILED)) /\
  (forall st2,
     setResult_default st = (Return tt, st2) ->
     exists service' uri' testcase records record,
       last (trace st2)
         = Some (getTestCaseRecords service' uri' testcase, Return records) /\
       getitem records (VInt 0) = Return record /\
       forall fields result,
         record = VObj Compound fields -> ordinary_fields fields ->
         assoc "result" fields = Some result ->
         getattr result "id" = Return (VStr "failed") ->
         assoc "ResultType" fields = None -> self st !! "ResultType" = None ->
         assoc "getResult" fields = None -> self st !! "getResult" = None ->
         invoke "getResult" getResult st2 = (Return (Member FAILED), st2)).
Proof.
  intros Hh Hshape Hp Hsave Hs Ht Hu.
  assert (Hfailed : with_result_id (ResultType_value FAILED) holder = set_failed holder)
    by now destruct holder.
  assert (Hset : setResult_default st = save (locally_set FAILED VNone holder st)).
  { apply (setResult_is_save st FAILED VNone holder polarion); auto.
    discriminate. }
  set (st1 := locally_set FAILED VNone holder st) in *.
  assert (Hother : forall name, name <> "result" -> self st1 !! name = self st !! name).
  { intros name Hn. unfold st1, locally_set. cbn [self is_None].
    now rewrite lookup_insert_ne. }
  split.
  - exists (public_items (self st1)). rewrite Hset. split; [|split].
    + apply (save_submitted st1 polarion service test_run uri); auto;
        rewrite Hother by discriminate; assumption.
    + rewrite public_items_lookup. cbn [startswith String.prefix].
      unfold st1, locally_set. cbn [self]. rewrite <- Hfailed.
      apply lookup_insert_eq.
    + rewrite <- Hfailed. now apply with_result_id_id.
  - intros st2 Hret. rewrite Hset in Hret.
    apply save_returns in Hret as (st' & Hself & Hret).
    apply reload_returns in Hret
      as (service' & uri' & testcase & records & record & Hlast & Hrec & Hres).
    exists service', uri', testcase, records, record. repeat split; auto.
    intros fields result Hr Hord Hf Hid Hf1 Hs1 Hf2 Hs2.
    assert (Hnc : forall name, name <> "_testcase" -> name <> "_testcase_name" ->
                    name <> "_defect" -> ~ cache_name name)
      by (unfold cache_name; intros name ? ? ? [|[|]]; congruence).
    rewrite invoke_None.
    + apply (getResult_of_holder st2 result (VStr "failed")); auto.
      * rewrite (Hres fields "result" Hr Hord) by (try apply Hnc; discriminate).
        now rewrite Hf.
      * rewrite (Hres fields "ResultType" Hr Hord) by (try apply Hnc; discriminate).
        rewrite Hf1, Hself, Hother by discriminate. exact Hs1.
    + rewrite (Hres fields "getResult" Hr Hord) by (try apply Hnc; discriminate).
      rewrite Hf2, Hself, Hother by discriminate. exact Hs2.
Qed.

Lemma setResult_default_sets_failed_witness :
  (exists new_item,
     submitted (trace (setResult_default stored_state).2)
       = submitted (trace stored_state) ++ [new_item] /\
     new_item !! "result" = Some (set_failed VNone) /\
     getattr (set_failed VNone) "id" = Return (ResultType_value FAILED)) /\
  (forall st2,
     setResult_default stored_state = (Return tt, st2) ->
     exists service' uri' testcase records record,
       last (trace st2)
         = Some (getTestCaseRecords service' uri' testcase, Return records) /\
       getitem records (VInt 0) = Return record /\
       forall fields result,
         record = VObj Compound fields -> ordinary_fields fields ->
         assoc "result" fields = Some result ->
         getattr result "id" = Return (VStr "failed") ->
         assoc "ResultType" fields = None ->
         self stored_state !! "ResultType" = None ->
         assoc "getResult" fields = None ->
         self stored_state !! "getResult" = None ->
         invoke "getResult" getResult st2 = (Return (Member FAILED), st2)).
Proof.
  apply (setResult_default_sets_failed stored_state VNone sample_polarion
           (VStr "TestManagement") sample_test_run
           (VStr "subterra:data-service:objects:/default/Proj${TestRun}run-1")).
  - vm_compute. reflexivity.
  - left. reflexivity.
  - vm_compute. reflexivity.
  - vm_compute. reflexivity.
  - reflexivity.
  - vm_compute. reflexivity.
  - reflexivity.
Defined.

(** Against a service that stores what it is given, the call returns and
    the result reads FAILED afterwards, whether the holder was created or
    was there, reading PASSED, before. *)
Lemma setResult_default_stored :
  (setResult_default stored_state).1 = Return tt /\
  (getResult (setResult_default stored_state).2).1 = Return (Member FAILED) /\
  (getResult passed_state).1 = Return (Member PASSED) /\
  (setResult_default passed_state).1 = Return tt /\
  (getResult (setResult_default passed_state).2).1 = Return (Member FAILED).
Proof. vm_compute. repeat split. Qed.

(** C4 (as stated) fails: against a service that answers the reload with a
    record whose result is null, [setResult()] returns and [getResult()]
    is the null result, not FAILED. *)
Lemma setResult_default_result_not_kept :
  (setResult_default sample_state).1 = Return tt /\
  (getResult (setResult_default sample_state).2).1 = Return (Member No).
Proof. vm_compute. split; reflexivity. Qed.

(** ** Step results *)

(** X22: past the end of the step results, on a record none of whose
    attributes hides [save], [setTestStepResult] touches no slot: it is the
    save alone. *)
Lemma setTestStepResult_past_end st results slots k n result comment :
  self st !! "testStepResults" = Some results -> is_None results = false ->
  getattr results "TestStepResult" = Return slots -> len slots = Return k ->
  k <= n ->
  self st !! "save" = None ->
  setTestStepResult n result comment st = save st.
Proof.
  intros Hr Hn Hs Hl Hk Hsave. unfold setTestStepResult.
  rewrite (bind_Return _ _ _ _ _ (self_get_Some _ _ _ Hr)). rewrite Hn.
  unfold bind at 1, ret at 1.
  rewrite (bind_Return _ _ _ _ _ (self_get_Some _ _ _ Hr)).
  rewrite Hs. unfold bind at 1, lift at 1.
  rewrite Hl. unfold bind at 1, lift at 1.
  destruct (Z.ltb_spec n k); [lia|].
  unfold bind, ret. now apply invoke_None.
Qed.

Lemma py_index_below i n : i < - Z.of_nat n -> py_index i n = None.
Proof.
  intros H. unfold py_index.
  destruct (Z.leb_spec 0 i); [lia|]. simpl.
  destruct (Z.leb_spec (- Z.of_nat n) i); [lia|]. reflexivity.
Qed.

(** Below the start of the step results, the bounds check lets the step
    number through and the indexing raises: nothing is set, nothing is
    saved. *)
Lemma setTestStepResult_below_start st results l polarion n result comment :
  self st !! "testStepResults" = Some results -> is_None results = false ->
  getattr results "TestStepResult" = Return (VList l) ->
  self st !! "_polarion" = Some polarion ->
  n < - Z.of_nat (List.length l) ->
  setTestStepResult n result comment st = (Raise IndexError, st).
Proof.
  intros Hr Hn Hs Hp Hlt. unfold setTestStepResult.
  rewrite (bind_Return _ _ _ _ _ (self_get_Some _ _ _ Hr)). rewrite Hn.
  unfold bind at 1, ret at 1.
  rewrite (bind_Return _ _ _ _ _ (self_get_Some _ _ _ Hr)).
  rewrite Hs. unfold bind at 1, lift at 1.
  cbn [len]. unfold bind at 1, lift at 1.
  destruct (Z.ltb_spec n (Z.of_nat (List.length l))); [|lia].
  apply bind_Raise.
  assert (Hmake : forall v, polarion_make v st = (Return v, st)).
  { intros v. unfold polarion_make.
    now rewrite (bind_Return _ _ _ _ _ (self_get_Some _ _ _ Hp)). }
  rewrite (bind_Return _ _ _ _ _ (Hmake _)).
  apply bind_Raise. unfold slot_setattr.
  rewrite (bind_Return _ _ _ _ _ (self_get_Some _ _ _ Hr)).
  rewrite Hs. unfold bind at 1, lift at 1.
  apply bind_Raise. unfold lift. cbn [getitem as_index]. unfold seq_getitem.
  now rewrite (py_index_below _ _ Hlt).
Qed.

(** C1: the bounds check of [setTestStepResult] looks at the upper bound
    only.  With two step results, step number -3 is out of bounds, yet the
    call raises [IndexError] and makes no call at all: nothing is saved.
    The same happens for step number -1 on a test case without steps, after
    the step results were initialised. *)
Theorem setTestStepResult_negative_index_raises :
  py_index (-3) 2 = None /\
  setTestStepResult (-3) PASSED VNone two_slots_state
    = (Raise IndexError, two_slots_state) /\
  (setTestStepResult (-1) PASSED VNone sample_state).1 = Raise IndexError /\
  submitted (trace (setTestStepResult (-1) PASSED VNone sample_state).2) = [].
Proof. vm_compute. repeat split. Qed.

(** * Further properties of the record *)

(** ** Comments and results read back *)

(** X1: what [setComment] stored, [getComment] returns: the text itself,
    also when the text is [None], and without any call. *)
Theorem getComment_after_setComment st comment polarion :
  self st !! "_polarion" = Some polarion ->
  getComment (setComment comment st).2
    = (Return comment, (setComment comment st).2) /\
  trace (setComment comment st).2 = trace st.
Proof.
  intros Hp. unfold setComment, polarion_make.
  rewrite (bind_Return _ _ _ _ _
             (bind_Return _ _ _ _ _ (self_get_Some _ _ _ Hp))).
  cbn [ret self_set snd]. split; [|reflexivity].
  set (st' := mkState _ _ _).
  assert (Hc : self st' !! "comment" = Some (TextType comment "text/html" false))
    by apply lookup_insert_eq.
  unfold getComment.
  rewrite (bind_Return _ _ _ _ _ (self_get_Some _ _ _ Hc)).
  cbn [negb is_None TextType].
  rewrite (bind_Return _ _ _ _ _ (self_get_Some _ _ _ Hc)).
  reflexivity.
Qed.

Lemma getComment_after_setComment_witness :
  getComment (setComment (VStr "<p>flaky</p>") sample_state).2
    = (Return (VStr "<p>flaky</p>"), (setComment (VStr "<p>flaky</p>") sample_state).2) /\
  trace (setComment (VStr "<p>flaky</p>") sample_state).2 = trace sample_state.
Proof.
  apply (getComment_after_setComment sample_state (VStr "<p>flaky</p>") sample_polarion).
  vm_compute. reflexivity.
Defined.

Lemma ResultType_call_value r : ResultType_call (ResultType_value r) = Return r.
Proof. now destruct r. Qed.

Lemma ResultType_call_inv v r : ResultType_call v = Return r -> ResultType_value r = v.
Proof.
  destruct v; simpl; try discriminate.
  - now intros [= <-].
  - destruct (String.eqb_spec s "passed") as [->|]; [now intros [= <-]|].
    destruct (String.eqb_spec s "failed") as [->|]; [now intros [= <-]|].
    destruct (String.eqb_spec s "blocked") as [->|]; [now intros [= <-]|].
    discriminate.
Qed.

Lemma ResultType_call_error v e : ResultType_call v = Raise e -> e = ValueError.
Proof.
  destruct v; simpl; try (now intros [= <-]); try discriminate.
  repeat (destruct (String.eqb _ _); try discriminate). now intros [= <-].
Qed.

(** X2: on a record whose result holder has an id and none of whose
    attributes hides the enumeration, [getResult] returns the member of the
    enumeration whose value is that id, and raises [ValueError] exactly when
    no member has it; the record is not changed either way. *)
Theorem getResult_decodes_id st holder id :
  self st !! "result" = Some holder ->
  getattr holder "id" = Return id ->
  self st !! "ResultType" = None ->
  (exists r, getResult st = (Return (Member r), st) /\ ResultType_value r = id) \/
  (getResult st = (Raise ValueError, st) /\ forall r, ResultType_value r <> id).
Proof.
  intros Hh Hid Ht.
  destruct (ResultType_call id) as [r|e] eqn:E.
  - left. exists r. split.
    + now apply (getResult_of_holder st holder id).
    + now apply ResultType_call_inv.
  - right. split.
    + unfold getResult.
      rewrite (bind_Return _ _ _ _ _ (self_get_Some _ _ _ Hh)).
      destruct holder; try discriminate. cbn [negb is_None].
      unfold bind at 1, self_ResultType at 1. rewrite Ht.
      rewrite (bind_Return _ _ _ _ _ (self_get_Some _ _ _ Hh)).
      rewrite Hid. unfold bind, lift. rewrite E.
      now rewrite (ResultType_call_error _ _ E).
    + intros r <-. rewrite ResultType_call_value in E. discriminate.
Qed.

Lemma getResult_decodes_id_witness :
  (exists r, getResult passed_state = (Return (Member r), passed_state) /\
             ResultType_value r = VStr "passed") \/
  (getResult passed_state = (Raise ValueError, passed_state) /\
   forall r, ResultType_value r <> VStr "passed").
Proof.
  apply (getResult_decodes_id passed_state (VObj Compound [("id", VStr "passed")])).
  - vm_compute. reflexivity.
  - reflexivity.
  - vm_compute. reflexivity.
Defined.

(** An attribute named [ResultType] hides the enumeration: the call of
    what it holds raises, and on a record without result its entry [No] is
    what [getResult] returns. *)
Lemma getResult_hidden_enumeration :
  (getResult (mkState (<["ResultType":=VObj Plain [("No", VInt 0)]]> (self passed_state))
                [] (world passed_state))).1 = Raise TypeError /\
  (getResult (mkState (<["ResultType":=VObj Plain [("No", VInt 0)]]> (self sample_state))
                [] (world sample_state))).1 = Return (Other (VInt 0)).
Proof. vm_compute. split; reflexivity. Qed.

(** ** What the save submits does not depend on private attributes *)

Lemma public_items_ext (d d' : gmap string value) :
  (forall attr, startswith attr "_" = false -> d !! attr = d' !! attr) ->
  public_items d = public_items d'.
Proof.
  intros H. apply map_eq. intros attr. rewrite !public_items_lookup.
  destruct (startswith attr "_") eqn:E; [reflexivity | now apply H].
Qed.

(** X3: two records that agree on every attribute whose name does not
    start with an underscore, and whose saves both reach the service, hand
    the same bag to [executeTest]: no private attribute, identity and caches
    included, influences what is written. *)
Theorem save_ignores_private_attributes
    st st' polarion service test_run uri polarion' service' test_run' uri' :
  (forall attr, startswith attr "_" = false -> self st !! attr = self st' !! attr) ->
  self st !! "_polarion" = Some polarion ->
  world st (trace st) (getService polarion "TestManagement") = Return service ->
  self st !! "_test_run" = Some test_run ->
  getattr test_run "uri" = Return uri ->
  self st' !! "_polarion" = Some polarion' ->
  world st' (trace st') (getService polarion' "TestManagement") = Return service' ->
  self st' !! "_test_run" = Some test_run' ->
  getattr test_run' "uri" = Return uri' ->
  exists new_item,
    submitted (trace (save st).2) = submitted (trace st) ++ [new_item] /\
    submitted (trace (save st').2) = submitted (trace st') ++ [new_item].
Proof.
  intros Heq Hp Hs Ht Hu Hp' Hs' Ht' Hu'.
  exists (public_items (self st)). split.
  - now apply (save_submitted st polarion service test_run uri).
  - rewrite (public_items_ext _ _ Heq).
    now apply (save_submitted st' polarion' service' test_run' uri').
Qed.

Lemma save_ignores_private_attributes_witness :
  exists new_item,
    submitted (trace (save sample_state).2)
      = submitted (trace sample_state) ++ [new_item] /\
    submitted (trace (save drifted_index_state).2)
      = submitted (trace drifted_index_state) ++ [new_item].
Proof.
  apply (save_ignores_private_attributes sample_state drifted_index_state
           sample_polarion (VStr "TestManagement") sample_test_run
           (VStr "subterra:data-service:objects:/default/Proj${TestRun}run-1")
           sample_polarion (VStr "TestManagement") sample_test_run
           (VStr "subterra:data-service:objects:/default/Proj${TestRun}run-1")).
  - intros attr Ha. unfold drifted_index_state. cbn [self].
    rewrite lookup_insert_ne; [reflexivity|]. intros <-. discriminate.
  - vm_compute. reflexivity.
  - reflexivity.
  - vm_compute. reflexivity.
  - reflexivity.
  - vm_compute. reflexivity.
  - reflexivity.
  - vm_compute. reflexivity.
  - reflexivity.
Defined.

(** ** Setting a result with a comment *)

(** X4: on a record none of whose attributes hides [save] or [setComment],
    [setResult(result, comment)] makes one write, and the bag it submits
    carries both the result id and, when a comment was given, the comment
    wrapped as rich content; without a comment the bag carries the comment
    the record had. *)
Theorem setResult_submits_result_and_comment
    st result comment holder polarion service test_run uri :
  self st !! "result" = Some holder ->
  holder = VNone \/ (exists c fields, holder = VObj c fields) ->
  self st !! "_polarion" = Some polarion ->
  self st !! "setComment" = None ->
  self st !! "save" = None ->
  world st (trace st) (getService polarion "TestManagement") = Return service ->
  self st !! "_test_run" = Some test_run ->
  getattr test_run "uri" = Return uri ->
  exists new_item,
    submitted (trace (setResult result comment st).2)
      = submitted (trace st) ++ [new_item] /\
    (exists h, new_item !! "result" = Some h /\
               getattr h "id" = Return (ResultType_value result)) /\
    new_item !! "comment"
      = if is_None comment then self st !! "comment"
        else Some (TextType comment "text/html" false).
Proof.
  intros Hh Hshape Hp Hsc Hsave Hs Ht Hu.
  rewrite (setResult_is_save st result comment holder polarion Hh Hshape Hp
             (fun _ => Hsc) Hsave).
  set (st1 := locally_set result comment holder st).
  exists (public_items (self st1)). split; [|split].
  - apply (save_submitted st1 polarion service test_run uri); auto.
    + unfold st1. now rewrite locally_set_other.
    + unfold st1. now rewrite locally_set_other.
  - exists (with_result_id (ResultType_value result) holder). split.
    + rewrite public_items_lookup. cbn [startswith String.prefix].
      unfold st1, locally_set. simpl. apply lookup_insert_eq.
    + now apply with_result_id_id.
  - rewrite public_items_lookup. cbn [startswith String.prefix].
    unfold st1, locally_set. simpl. rewrite lookup_insert_ne by discriminate.
    destruct (is_None comment); [reflexivity|]. apply lookup_insert_eq.
Qed.

Lemma setResult_submits_result_and_comment_witness :
  exists new_item,
    submitted (trace (setResult BLOCKED (VStr "no rig") sample_state).2)
      = submitted (trace sample_state) ++ [new_item] /\
    (exists h, new_item !! "result" = Some h /\
               getattr h "id" = Return (ResultType_value BLOCKED)) /\
    new_item !! "comment"
      = if is_None (VStr "no rig") then self sample_state !! "comment"
        else Some (TextType (VStr "no rig") "text/html" false).
Proof.
  apply (setResult_submits_result_and_comment sample_state BLOCKED (VStr "no rig")
           VNone sample_polarion (VStr "TestManagement") sample_test_run
           (VStr "subterra:data-service:objects:/default/Proj${TestRun}run-1")).
  - vm_compute. reflexivity.
  - now left.
  - vm_compute. reflexivity.
  - vm_compute. reflexivity.
  - vm_compute. reflexivity.
  - vm_compute. reflexivity.
  - vm_compute. reflexivity.
  - vm_compute. reflexivity.
Defined.

(** X5: on a record none of whose attributes hides [save], [setComment]
    or the enumeration, when the service rejects the write of [setResult],
    the exception reaches the caller and the record keeps what was set
    locally and never synced: [getResult()] returns the result asked for,
    [getComment()] the comment given. *)
Theorem setResult_failure_keeps_local_values
    st result comment holder polarion service test_run uri e :
  self st !! "result" = Some holder ->
  holder = VNone \/ (exists c fields, holder = VObj c fields) ->
  self st !! "_polarion" = Some polarion ->
  self st !! "setComment" = None ->
  self st !! "save" = None ->
  self st !! "ResultType" = None ->
  world st (trace st) (getService polarion "TestManagement") = Return service ->
  self st !! "_test_run" = Some test_run ->
  getattr test_run "uri" = Return uri ->
  world st (trace st ++ [(getService polarion "TestManagement", Return service)])
    (executeTest service uri
       (public_items (self (locally_set result comment holder st)))) = Raise e ->
  (setResult result comment st).1 = Raise e /\
  (getResult (setResult result comment st).2).1 = Return (Member result) /\
  (is_None comment = false ->
   (getComment (setResult result comment st).2).1 = Return comment).
Proof.
  intros Hh Hshape Hp Hsc Hsave Hrt Hs Ht Hu He.
  rewrite (setResult_is_save st result comment holder polarion Hh Hshape Hp
             (fun _ => Hsc) Hsave).
  set (st1 := locally_set result comment holder st) in *.
  assert (Hp1 : self st1 !! "_polarion" = Some polarion)
    by (unfold st1; now rewrite locally_set_other).
  assert (Ht1 : self st1 !! "_test_run" = Some test_run)
    by (unfold st1; now rewrite locally_set_other).
  assert (Hrt1 : self st1 !! "ResultType" = None)
    by (unfold st1; now rewrite locally_set_other).
  rewrite (save_until_write st1 polarion service test_run uri Hp1 Hs Ht1 Hu).
  cbv zeta. change (trace st1) with (trace st). change (world st1) with (world st).
  rewrite He. cbn [fst snd]. split; [reflexivity|]. split.
  - set (st2 := mkState _ _ _).
    rewrite (getResult_of_holder st2 (with_result_id (ResultType_value result) holder)
               (ResultType_value result) result); [reflexivity| | | |].
    + apply lookup_insert_eq.
    + exact Hrt1.
    + now apply with_result_id_id.
    + apply ResultType_call_value.
  - intros Hc. set (st2 := mkState _ _ _).
    assert (Hcm : self st2 !! "comment" = Some (TextType comment "text/html" false)).
    { unfold st2, st1, locally_set. simpl. rewrite lookup_insert_ne by discriminate.
      rewrite Hc. apply lookup_insert_eq. }
    unfold getComment.
    rewrite (bind_Return _ _ _ _ _ (self_get_Some _ _ _ Hcm)).
    cbn [negb is_None TextType].
    rewrite (bind_Return _ _ _ _ _ (self_get_Some _ _ _ Hcm)). reflexivity.
Qed.

Lemma setResult_failure_keeps_local_values_witness :
  (setResult PASSED (VStr "ok") rejected_state).1
    = Raise (ExternalError "executeTest rejected") /\
  (getResult (setResult PASSED (VStr "ok") rejected_state).2).1
    = Return (Member PASSED) /\
  (is_None (VStr "ok") = false ->
   (getComment (setResult PASSED (VStr "ok") rejected_state).2).1
     = Return (VStr "ok")).
Proof.
  apply (setResult_failure_keeps_local_values rejected_state PASSED (VStr "ok")
           VNone sample_polarion (VStr "TestManagement") sample_test_run
           (VStr "subterra:data-service:objects:/default/Proj${TestRun}run-1")
           (ExternalError "executeTest rejected")).
  - vm_compute. reflexivity.
  - now left.
  - vm_compute. reflexivity.
  - vm_compute. reflexivity.
  - vm_compute. reflexivity.
  - vm_compute. reflexivity.
  - reflexivity.
  - vm_compute. reflexivity.
  - reflexivity.
  - reflexivity.
Defined.

(** ** Attachments: the edges of the download *)

(** X6: on a record whose attachments collection is null,
    [hasAttachment()] is false and [getAttachment] raises
    [AttributeError] for the list it cannot reach -- not the exception that
    reports a missing attachment -- without any call. *)
Theorem getAttachment_without_collection st file_name :
  self st !! "attachments" = Some VNone ->
  hasAttachment st = (Return false, st) /\
  getAttachment file_name st = (Raise (AttributeError "TestRunAttachment"), st).
Proof.
  intros H. split.
  - unfold hasAttachment. now rewrite (bind_Return _ _ _ _ _ (self_get_Some _ _ _ H)).
  - unfold getAttachment. now rewrite (bind_Return _ _ _ _ _ (self_get_Some _ _ _ H)).
Qed.

Lemma getAttachment_without_collection_witness :
  hasAttachment sample_state = (Return false, sample_state) /\
  getAttachment "log.txt" sample_state
    = (Raise (AttributeError "TestRunAttachment"), sample_state).
Proof.
  apply (getAttachment_without_collection sample_state "log.txt").
  vm_compute. reflexivity.
Defined.

(** X7: when the last entry that bears the file name has a null url,
    [getAttachment] reports the attachment as not found although an entry
    bears its name, and fetches nothing -- also when an earlier entry of that
    name has a url. *)
Theorem getAttachment_null_url st file_name attachments pre a post :
  self st !! "attachments" = Some attachments ->
  getattr attachments "TestRunAttachment" = Return (VList (pre ++ a :: post)) ->
  Forall entry_ok pre ->
  entry_named file_name a -> getattr a "url" = Return VNone ->
  Forall (entry_not_named file_name) post ->
  getAttachment file_name st = (Raise (not_found file_name), st).
Proof.
  intros Ha Hl Hpre Hnamed Hurl Hpost. unfold getAttachment.
  rewrite (bind_Return _ _ _ _ _ (self_get_Some _ _ _ Ha)).
  rewrite Hl. simpl obind. unfold bind at 1, lift at 1.
  rewrite (find_url_last file_name pre a post VNone VNone Hpre Hnamed Hurl Hpost).
  reflexivity.
Qed.

Lemma getAttachment_null_url_witness :
  getAttachment "log.txt" no_url_state = (Raise (not_found "log.txt"), no_url_state).
Proof.
  refine (getAttachment_null_url no_url_state "log.txt"
            (VObj Compound [("TestRunAttachment",
               VList [TestRunAttachment (VStr "log.txt") VNone])])
            [] (TestRunAttachment (VStr "log.txt") VNone) [] _ eq_refl _ _ eq_refl _);
    try (vm_compute; reflexivity); entries_tac.
Defined.

Lemma opened_snoc tr c r :
  opened (tr ++ [(c, r)]) =
  opened tr ++ match c with
               | open_ file_path _ => [file_path]
               | _ => []
               end.
Proof.
  unfold opened. rewrite omap_app. simpl.
  destruct c; simpl; now rewrite ?app_nil_r.
Qed.

Lemma getAttachment_keeps I calls file_name :
  trace_stable I calls -> (forall url auth, calls (requests_get url auth)) ->
  keeps I (getAttachment file_name).
Proof.
  intros HI Hc. unfold getAttachment.
  do 3 (apply keeps_bind; [keeps_auto | intros ?]).
  destruct (negb _); [|apply keeps_raise].
  do 6 (apply keeps_bind; [keeps_auto | intros ?]).
  destruct (eq_True _); keeps_auto.
Qed.

(** X8: [getAttachment] only reads the record: whatever it returns or
    raises, every attribute of the record is what it was, and no file was
    opened. *)
Theorem getAttachment_reads_only st file_name :
  self (getAttachment file_name st).2 = self st /\
  opened (trace (getAttachment file_name st).2) = opened (trace st).
Proof.
  apply (getAttachment_keeps
           (fun s => self s = self st /\ opened (trace s) = opened (trace st))
           (fun c => match c with requests_get _ _ => True | _ => False end)).
  - intros s c Hc [H1 H2]. simpl. split; [exact H1|].
    rewrite opened_snoc, H2. destruct c; try contradiction. apply app_nil_r.
  - now intros.
  - now split.
Qed.

Lemma getAttachment_opens_nothing st file_name :
  opened (trace (getAttachment file_name st).2) = opened (trace st).
Proof.
  apply (getAttachment_keeps
           (fun s => opened (trace s) = opened (trace st))
           (fun c => match c with requests_get _ _ => True | _ => False end));
    auto.
  intros s c Hc H. simpl.
  rewrite opened_snoc, H. destruct c; try contradiction. apply app_nil_r.
Qed.

Lemma getAttachment_self st file_name : self (getAttachment file_name st).2 = self st.
Proof.
  apply (getAttachment_keeps (fun s => self s = self st) (fun _ => True)); auto.
  now intros s c _ H.
Qed.

(** X9: on a record none of whose attributes hides [getAttachment],
    [saveAttachmentAsFile] downloads before it opens the destination: when
    the download raises, the same exception reaches the caller and the
    destination was never opened, so a failed download leaves the file on
    disk as it was. *)
Theorem saveAttachmentAsFile_download_first st file_name file_path e :
  self st !! "getAttachment" = None ->
  (getAttachment file_name st).1 = Raise e ->
  (saveAttachmentAsFile file_name file_path st).1 = Raise e /\
  opened (trace (saveAttachmentAsFile file_name file_path st).2) = opened (trace st).
Proof.
  intros Hg H. unfold saveAttachmentAsFile.
  pose proof (getAttachment_opens_nothing st file_name) as Ho.
  pose proof (invoke_None "getAttachment" (getAttachment file_name) st Hg) as Hi.
  destruct (getAttachment file_name st) as [[bin|e'] st1] eqn:E; simpl in H;
    [discriminate|]. injection H as ->.
  rewrite (bind_Raise _ _ _ _ _ Hi). now split.
Qed.

Lemma saveAttachmentAsFile_download_first_witness :
  (saveAttachmentAsFile "log.txt" "/tmp/log.txt" offline_state).1
    = Raise (download_failed "log.txt") /\
  opened (trace (saveAttachmentAsFile "log.txt" "/tmp/log.txt" offline_state).2)
    = opened (trace offline_state).
Proof.
  apply (saveAttachmentAsFile_download_first offline_state "log.txt" "/tmp/log.txt"
           (download_failed "log.txt")).
  - vm_compute. reflexivity.
  - vm_compute. reflexivity.
Defined.

Lemma with_open_run {A} file_path mode (body : value -> M A) st file r st2 closed :
  world st (trace st) (open_ file_path mode) = Return file ->
  body file (mkState (self st)
               (trace st ++ [(open_ file_path mode, Return file)]) (world st))
    = (r, st2) ->
  world st2 (trace st2) (file_close file) = Return closed ->
  with_open file_path mode body st =
  (r, mkState (self st2) (trace st2 ++ [(file_close file, Return closed)]) (world st2)).
Proof.
  intros Ho Hb Hc. unfold with_open.
  unfold bind at 1, perform at 1. rewrite Ho, Hb.
  destruct r as [a|e]; unfold bind, perform; rewrite Hc; reflexivity.
Qed.

(** X10: on a record none of whose attributes hides [getAttachment], when
    the download returns, [saveAttachmentAsFile] opens the destination for
    binary writing, writes exactly the bytes downloaded, and closes the
    file -- also when the write raises, in which case the exception reaches
    the caller. *)
Theorem saveAttachmentAsFile_writes_download
    st file_name file_path bin st1 file closed :
  self st !! "getAttachment" = None ->
  getAttachment file_name st = (Return bin, st1) ->
  world st1 (trace st1) (open_ file_path "wb") = Return file ->
  let opening := (open_ file_path "wb", Return file) in
  let written := world st1 (trace st1 ++ [opening]) (file_write file bin) in
  let writing := (file_write file bin, written) in
  world st1 (trace st1 ++ [opening; writing]) (file_close file) = Return closed ->
  trace (saveAttachmentAsFile file_name file_path st).2
    = trace st1 ++ [opening; writing; (file_close file, Return closed)] /\
  (saveAttachmentAsFile file_name file_path st).1
    = match written with
      | Return _ => Return tt
      | Raise e => Raise e
      end /\
  self (saveAttachmentAsFile file_name file_path st).2 = self st.
Proof.
  intros Hn Hg Ho opening written writing Hc.
  pose proof (getAttachment_self st file_name) as Hself.
  rewrite Hg in Hself. simpl in Hself.
  rewrite <- (invoke_None "getAttachment" (getAttachment file_name) st Hn) in Hg.
  unfold saveAttachmentAsFile. rewrite (bind_Return _ _ _ _ _ Hg).
  assert (Hb : (perform (file_write file bin) ;;; ret tt)
                 (mkState (self st1) (trace st1 ++ [opening]) (world st1))
               = (match written with Return _ => Return tt | Raise e => Raise e end,
                  mkState (self st1) (trace st1 ++ [opening; writing]) (world st1))).
  { unfold bind, perform, ret. cbn [self trace world]. fold written. fold writing.
    rewrite <- app_assoc. cbn [app]. now destruct written. }
  rewrite (with_open_run file_path "wb" _ st1 file _ _ closed Ho Hb Hc).
  cbn [fst snd self trace]. rewrite <- app_assoc. cbn [app]. auto.
Qed.

Lemma saveAttachmentAsFile_writes_download_witness :
  let st1 := (getAttachment "log.txt" disk_state).2 in
  trace (saveAttachmentAsFile "log.txt" "/tmp/log.txt" disk_state).2
    = trace st1 ++
        [(open_ "/tmp/log.txt" "wb", Return (VStr "/tmp/log.txt"));
         (file_write (VStr "/tmp/log.txt") (VBytes "data"),
          world st1 (trace st1 ++ [(open_ "/tmp/log.txt" "wb", Return (VStr "/tmp/log.txt"))])
            (file_write (VStr "/tmp/log.txt") (VBytes "data")));
         (file_close (VStr "/tmp/log.txt"), Return VNone)] /\
  (saveAttachmentAsFile "log.txt" "/tmp/log.txt" disk_state).1
    = match world st1 (trace st1 ++ [(open_ "/tmp/log.txt" "wb", Return (VStr "/tmp/log.txt"))])
              (file_write (VStr "/tmp/log.txt") (VBytes "data")) with
      | Return _ => Return tt
      | Raise e => Raise e
      end /\
  self (saveAttachmentAsFile "log.txt" "/tmp/log.txt" disk_state).2 = self disk_state.
Proof.
  intros st1.
  apply (saveAttachmentAsFile_writes_download disk_state "log.txt" "/tmp/log.txt"
           (VBytes "data") st1 (VStr "/tmp/log.txt") VNone).
  - vm_compute. reflexivity.
  - vm_compute. reflexivity.
  - reflexivity.
  - reflexivity.
Defined.

(** ** Reloading and rebuilding *)




(** X12: when the service knows of no record for the test case, the
    indexing of the empty answer raises [IndexError]; the projection keeps
    every attribute, payload included, as it was. *)
Theorem reload_without_record st polarion service test_run uri testcase :
  self st !! "_polarion" = Some polarion ->
  world st (trace st) (getService polarion "TestManagement") = Return service ->
  self st !! "_test_run" = Some test_run ->
  getattr test_run "uri" = Return uri ->
  self st !! "_testcase" = Some testcase ->
  world st (trace st ++ [(getService polarion "TestManagement", Return service)])
    (getTestCaseRecords service uri testcase) = Return (VList []) ->
  (_reloadFromPolarion st).1 = Raise IndexError /\
  self (_reloadFromPolarion st).2 = self st.
Proof.
  intros Hp Hs Ht Hu Htc Hr.
  assert (H : _reloadFromPolarion st =
              (Raise IndexError,
               mkState (self st)
                 ((trace st ++ [(getService polarion "TestManagement", Return service)])
                    ++ [(getTestCaseRecords service uri testcase, Return (VList []))])
                 (world st))).
  { unfold _reloadFromPolarion.
    rewrite (bind_Return _ _ _ _ _ (self_get_Some _ _ _ Hp)).
    unfold bind at 1, perform at 1. rewrite Hs.
    unfold bind at 1, self_get at 1. cbn [self]. rewrite Ht.
    rewrite Hu. unfold bind at 1, lift at 1.
    unfold bind at 1, self_get at 1. cbn [self]. rewrite Htc.
    unfold bind at 1, perform at 1. cbn [self trace world]. rewrite Hr.
    reflexivity. }
  rewrite H. now split.
Qed.

Lemma reload_without_record_witness :
  (_reloadFromPolarion lost_state).1 = Raise IndexError /\
  self (_reloadFromPolarion lost_state).2 = self lost_state.
Proof.
  apply (reload_without_record lost_state
           sample_polarion (VStr "TestManagement") sample_test_run
           (VStr "subterra:data-service:objects:/default/Proj${TestRun}run-1")
           (VStr "{ns}Proj/TC-123")).
  - vm_compute. reflexivity.
  - reflexivity.
  - vm_compute. reflexivity.
  - reflexivity.
  - vm_compute. reflexivity.
  - reflexivity.
Defined.




(** ** Construction *)

Lemma seq_getitem_second {A} (a b : A) t : seq_getitem (a :: b :: t) 1 = Return b.
Proof.
  unfold seq_getitem, py_index. cbn [List.length].
  destruct (Z.ltb_spec 1 (Z.of_nat (S (S (List.length t))))); [reflexivity | lia].
Qed.



(** X15: the testcase name is what stands between the first and the second
    closing brace of the reference: whatever follows a second brace is
    dropped from the name.  (For a compound payload with ordinary field
    names and no field named [_polarion_record], the method
    [getTestCaseName] being hidden neither by a field nor by an
    attribute.) *)
Theorem testcase_name_stops_at_second_brace st fields ns name rest defectURI :
  self st !! "_polarion_record" = Some (VObj Compound fields) ->
  ordinary_fields fields ->
  assoc "_polarion_record" fields = None ->
  assoc "testCaseURI" fields = Some (VStr (ns +:+ "}" +:+ name +:+ "}" +:+ rest)) ->
  has_char "}" ns = false -> has_char "}" name = false ->
  assoc "defectURI" fields = Some defectURI ->
  assoc "getTestCaseName" fields = None ->
  self st !! "getTestCaseName" = None ->
  exists st',
    _buildWorkitemFromPolarion st = (Return tt, st') /\
    invoke "getTestCaseName" getTestCaseName st' = (Return (VStr name), st').
Proof.
  intros Hrec Hord Hnone Hu Hns Hname Hd Hf Hs.
  rewrite (build_compound st fields Hrec Hord). set (st1 := mkState _ _ _).
  assert (Hrec1 : self st1 !! "_polarion_record" = Some (VObj Compound fields)).
  { unfold st1. simpl. now rewrite project_fields_lookup, Hnone. }
  eexists. split.
  - apply (derive_references_ok st1 (VObj Compound fields)
             (ns +:+ "}" +:+ name +:+ "}" +:+ rest) name defectURI Hrec1).
    + simpl. now rewrite Hu.
    + change ("}" +:+ name +:+ "}" +:+ rest) with (String "}" (name +:+ String "}" rest)).
      rewrite (split_at_sep _ _ _ Hns), (split_at_sep _ _ _ Hname).
      apply seq_getitem_second.
    + simpl. now rewrite Hd.
  - rewrite invoke_None.
    + unfold getTestCaseName. apply self_get_Some. simpl.
      rewrite lookup_insert_ne by discriminate. apply lookup_insert_eq.
    + cbn [self st1]. rewrite built_lookup, Hf; [exact Hs|].
      unfold cache_name. intros [H|[H|H]]; discriminate.
Qed.

Lemma testcase_name_stops_at_second_brace_witness :
  exists st',
    _buildWorkitemFromPolarion
      (holding (with_field "testCaseURI" (VStr "{ns}Proj/TC-1}23") sample_record))
      = (Return tt, st') /\
    invoke "getTestCaseName" getTestCaseName st' = (Return (VStr "Proj/TC-1"), st').
Proof.
  exact (testcase_name_stops_at_second_brace
           (holding (with_field "testCaseURI" (VStr "{ns}Proj/TC-1}23") sample_record))
           (assoc_set "testCaseURI" (VStr "{ns}Proj/TC-1}23") sample_fields)
           "{ns" "Proj/TC-1" "23" VNone
           eq_refl (conj eq_refl (conj eq_refl eq_refl))
           eq_refl eq_refl eq_refl eq_refl eq_refl eq_refl eq_refl).
Defined.

(** ** Step results *)

Lemma nth_error_is_lookup {A} (l : list A) j : nth_error l j = l !! j.
Proof.
  revert j. induction l as [|x l IH]; intros [|j]; simpl; auto.
Qed.

Lemma assoc_assoc_set k v m : assoc k (assoc_set k v m) = Some v.
Proof.
  induction m as [|[k' v'] m IH]; simpl.
  - now rewrite String.eqb_refl.
  - destruct (String.eqb_spec k' k) as [->|Hne]; simpl.
    + now rewrite String.eqb_refl.
    + apply String.eqb_neq in Hne. now rewrite Hne.
Qed.

Lemma assoc_set_assoc_set k v1 v2 m :
  assoc_set k v2 (assoc_set k v1 m) = assoc_set k v2 m.
Proof.
  induction m as [|[k' v'] m IH]; simpl.
  - now rewrite String.eqb_refl.
  - destruct (String.eqb_spec k' k) as [->|Hne]; simpl.
    + now rewrite String.eqb_refl.
    + apply String.eqb_neq in Hne. rewrite Hne. now rewrite IH.
Qed.

Lemma py_index_Some i n j :
  py_index i n = Some j -> i < Z.of_nat n /\ (j < n)%nat.
Proof.
  unfold py_index.
  destruct (Z.leb_spec 0 i), (Z.ltb_spec i (Z.of_nat n)); simpl;
    try (intros [= <-]; lia);
    destruct (Z.leb_spec (- Z.of_nat n) i), (Z.ltb_spec i 0); simpl;
    try discriminate; intros [= <-]; lia.
Qed.

(** One assignment to an attribute of a slot, when the index is one Python
    accepts. *)
Lemma slot_setattr_run st c fields l n j c' slot_fields name v :
  self st !! "testStepResults" = Some (VObj c fields) ->
  assoc "TestStepResult" fields = Some (VList l) ->
  py_index n (List.length l) = Some j ->
  l !! j = Some (VObj c' slot_fields) ->
  slot_setattr n name v st =
  (Return tt,
   mkState
     (<["testStepResults":=
          VObj c (assoc_set "TestStepResult"
                    (VList (<[j:=VObj c' (assoc_set name v slot_fields)]> l)) fields)]>
        (self st))
     (trace st) (world st)).
Proof.
  intros Hr Hl Hj Hs. unfold slot_setattr.
  rewrite (bind_Return _ _ _ _ _ (self_get_Some _ _ _ Hr)).
  cbn [getattr]. rewrite Hl. unfold bind at 1, lift at 1.
  cbn [getitem as_index]. unfold seq_getitem. rewrite Hj, nth_error_is_lookup, Hs.
  unfold bind at 1, lift at 1. cbn [setattr]. unfold bind at 1, lift at 1.
  unfold seq_setitem. rewrite Hj. cbn [obind]. unfold bind at 1, lift at 1.
  unfold bind at 1, lift at 1. reflexivity.
Qed.

(** In the model, [setTestStepResult] within bounds is the save of the
    record with the one slot set. *)
Lemma setTestStepResult_within st c fields l n j c' slot_fields result comment polarion :
  self st !! "testStepResults" = Some (VObj c fields) ->
  assoc "TestStepResult" fields = Some (VList l) ->
  py_index n (List.length l) = Some j ->
  l !! j = Some (VObj c' slot_fields) ->
  self st !! "_polarion" = Some polarion ->
  self st !! "save" = None ->
  setTestStepResult n result comment st =
  save (mkState
          (<["testStepResults":=
               VObj c (assoc_set "TestStepResult"
                         (VList (<[j:=slot_with result comment (VObj c' slot_fields)]> l))
                         fields)]> (self st))
          (trace st) (world st)).
Proof.
  intros Hr Hl Hj Hs Hp Hsave.
  destruct (py_index_Some _ _ _ Hj) as [Hn Hjlt].
  unfold setTestStepResult.
  rewrite (bind_Return _ _ _ _ _ (self_get_Some _ _ _ Hr)). cbn [is_None].
  unfold bind at 1, ret at 1.
  rewrite (bind_Return _ _ _ _ _ (self_get_Some _ _ _ Hr)).
  cbn [getattr]. rewrite Hl. unfold bind at 1, lift at 1.
  cbn [len]. unfold bind at 1, lift at 1.
  destruct (Z.ltb_spec n (Z.of_nat (List.length l))); [|lia].
  assert (Hmake : forall s v, self s !! "_polarion" = Some polarion ->
                    polarion_make v s = (Return v, s)).
  { intros s v Hs'. unfold polarion_make.
    now rewrite (bind_Return _ _ _ _ _ (self_get_Some _ _ _ Hs')). }
  set (id := EnumOptionIdType (ResultType_value result)).
  set (slot1 := VObj c' (assoc_set "result" id slot_fields)).
  set (st1 := mkState
                (<["testStepResults":=
                     VObj c (assoc_set "TestStepResult" (VList (<[j:=slot1]> l)) fields)]>
                   (self st)) (trace st) (world st)).
  assert (H1 : slot_setattr n "result" id st = (Return tt, st1))
    by (apply (slot_setattr_run st c fields l n j c' slot_fields); auto).
  set (text := TextType comment "text/html" false).
  set (slot2 := VObj c' (assoc_set "comment" text (assoc_set "result" id slot_fields))).
  set (st2 := mkState
                (<["testStepResults":=
                     VObj c (assoc_set "TestStepResult" (VList (<[j:=slot2]> l)) fields)]>
                   (self st)) (trace st) (world st)).
  assert (Hp1 : self st1 !! "_polarion" = Some polarion)
    by (unfold st1; simpl; now rewrite lookup_insert_ne).
  assert (H2 : slot_setattr n "comment" text st1 = (Return tt, st2)).
  { rewrite (slot_setattr_run st1 c
               (assoc_set "TestStepResult" (VList (<[j:=slot1]> l)) fields)
               (<[j:=slot1]> l) n j c' (assoc_set "result" id slot_fields)).
    - unfold st2, st1, slot2. cbn [self trace world].
      rewrite insert_insert_eq, assoc_set_assoc_set, list_insert_insert_eq.
      reflexivity.
    - apply lookup_insert_eq.
    - apply assoc_assoc_set.
    - now rewrite length_insert.
    - now apply list_lookup_insert_eq. }
  assert (Hbody : (id0 <~ polarion_make id ;;
                   slot_setattr n "result" id0 ;;;
                   (if negb (is_None comment)
                    then
                      text <~ polarion_make (TextType comment "text/html" false) ;;
                      slot_setattr n "comment" text
                    else ret tt)) st
                  = (Return tt, if is_None comment then st1 else st2)).
  { rewrite (bind_Return _ _ _ _ _ (Hmake st id Hp)).
    rewrite (bind_Return _ _ _ _ _ H1).
    destruct (is_None comment); cbn [negb]; [reflexivity|].
    rewrite (bind_Return _ _ _ _ _ (Hmake st1 _ Hp1)). exact H2. }
  rewrite (bind_Return _ _ _ _ _ Hbody).
  rewrite invoke_None
    by (destruct (is_None comment); cbn [self st1 st2];
        now rewrite lookup_insert_ne).
  unfold st1, st2, slot1, slot2, slot_with, id, text.
  now destruct (is_None comment).
Qed.

(** X16: on a record none of whose attributes hides [save], for a step
    number Python accepts as an index -- from minus the number of slots up
    to, but excluding, the number of slots -- [setTestStepResult] sets the
    result, and the comment if one is given, of the slot the index denotes
    (-1 is the last slot) and saves: when the save reaches the service, the
    one record it submits carries the step results with that slot so set,
    every other slot and the number of slots as they were. *)
Theorem setTestStepResult_sets_one_slot
    st c fields l n j slot result comment polarion service test_run uri :
  self st !! "testStepResults" = Some (VObj c fields) ->
  assoc "TestStepResult" fields = Some (VList l) ->
  py_index n (List.length l) = Some j ->
  l !! j = Some slot -> (exists c' slot_fields, slot = VObj c' slot_fields) ->
  self st !! "_polarion" = Some polarion ->
  self st !! "save" = None ->
  world st (trace st) (getService polarion "TestManagement") = Return service ->
  self st !! "_test_run" = Some test_run ->
  getattr test_run "uri" = Return uri ->
  exists new_item l',
    submitted (trace (setTestStepResult n result comment st).2)
      = submitted (trace st) ++ [new_item] /\
    new_item !! "testStepResults"
      = Some (VObj c (assoc_set "TestStepResult" (VList l') fields)) /\
    List.length l' = List.length l /\
    l' !! j = Some (slot_with result comment slot) /\
    forall i, i <> j -> l' !! i = l !! i.
Proof.
  intros Hr Hl Hj Hs (c' & slot_fields & ->) Hp Hsave Hsv Ht Hu.
  destruct (py_index_Some _ _ _ Hj) as [Hn Hjlt].
  rewrite (setTestStepResult_within st c fields l n j c' slot_fields result comment
             polarion Hr Hl Hj Hs Hp Hsave).
  set (st1 := mkState _ _ _).
  exists (public_items (self st1)),
         (<[j:=slot_with result comment (VObj c' slot_fields)]> l).
  split; [|split; [|split; [apply length_insert | split]]].
  - apply (save_submitted st1 polarion service test_run uri); auto;
      unfold st1; cbn [self]; now rewrite lookup_insert_ne.
  - rewrite public_items_lookup. cbn [startswith String.prefix].
    apply lookup_insert_eq.
  - now apply list_lookup_insert_eq.
  - intros i Hi. now apply list_lookup_insert_ne.
Qed.

Lemma setTestStepResult_sets_one_slot_witness :
  exists new_item l',
    submitted (trace (setTestStepResult (-1) PASSED (VStr "fine") two_slots_state).2)
      = submitted (trace two_slots_state) ++ [new_item] /\
    new_item !! "testStepResults"
      = Some (VObj Compound
                (assoc_set "TestStepResult" (VList l')
                   [("TestStepResult",
                     VList [TestStepResultType; TestStepResultType])])) /\
    List.length l' = List.length [TestStepResultType; TestStepResultType] /\
    l' !! 1%nat = Some (slot_with PASSED (VStr "fine") TestStepResultType) /\
    forall i, i <> 1%nat -> l' !! i = [TestStepResultType; TestStepResultType] !! i.
Proof.
  apply (setTestStepResult_sets_one_slot two_slots_state Compound
           [("TestStepResult", VList [TestStepResultType; TestStepResultType])]
           [TestStepResultType; TestStepResultType] (-1) 1%nat TestStepResultType
           PASSED (VStr "fine") sample_polarion (VStr "TestManagement") sample_test_run
           (VStr "subterra:data-service:objects:/default/Proj${TestRun}run-1")).
  - vm_compute. reflexivity.
  - reflexivity.
  - reflexivity.
  - reflexivity.
  - do 2 eexists. reflexivity.
  - vm_compute. reflexivity.
  - vm_compute. reflexivity.
  - reflexivity.
  - vm_compute. reflexivity.
  - reflexivity.
Defined.

(** The loop that allocates the slots. *)
Lemma append_slots k :
  forall a l d tr w polarion,
    d !! "_polarion" = Some polarion ->
    for_each (seq a k) (fun _ => append_slot)
      (mkState (<["testStepResults":=VObj Compound [("TestStepResult", VList l)]]> d)
         tr w)
    = (Return tt,
       mkState (<["testStepResults":=
                    VObj Compound
                      [("TestStepResult", VList (l ++ repeat TestStepResultType k))]]> d)
         tr w).
Proof.
  induction k as [|k IH]; intros a l d tr w polarion Hp.
  - simpl. now rewrite app_nil_r.
  - cbn [seq for_each].
    set (st := mkState _ tr w).
    assert (H1 : append_slot st =
                 (Return tt,
                  mkState (<["testStepResults":=
                               VObj Compound
                                 [("TestStepResult", VList (l ++ [TestStepResultType]))]]> d)
                    tr w)).
    { unfold append_slot.
      assert (Hr : self st !! "testStepResults"
                   = Some (VObj Compound [("TestStepResult", VList l)]))
        by apply lookup_insert_eq.
      assert (Hp' : self st !! "_polarion" = Some polarion)
        by (unfold st; simpl; now rewrite lookup_insert_ne).
      rewrite (bind_Return _ _ _ _ _ (self_get_Some _ _ _ Hr)).
      cbn [getattr assoc String.eqb Ascii.eqb Bool.eqb].
      unfold bind at 1, lift at 1. unfold bind at 1, lift at 1.
      unfold polarion_make.
      rewrite (bind_Return _ _ _ _ _
                 (bind_Return _ _ _ _ _ (self_get_Some _ _ _ Hp'))).
      unfold ret. cbn [setattr assoc_set String.eqb Ascii.eqb Bool.eqb].
      unfold bind at 1, lift at 1. unfold self_set, st. cbn [self trace world].
      now rewrite insert_insert_eq. }
    rewrite (bind_Return _ _ _ _ _ H1).
    rewrite (IH (S a) (l ++ [TestStepResultType]) d tr w polarion Hp).
    rewrite <- app_assoc. reflexivity.
Qed.

(** The run of the lazy initialisation. *)
Lemma init_testStepResults_run
    st polarion service testCaseURI test_steps steps k :
  self st !! "_polarion" = Some polarion ->
  world st (trace st) (getService polarion "TestManagement") = Return service ->
  self st !! "testCaseURI" = Some testCaseURI ->
  world st (trace st ++ [(getService polarion "TestManagement", Return service)])
    (getTestSteps service testCaseURI) = Return test_steps ->
  getattr test_steps "steps" = Return steps ->
  (steps = VNone /\ k = 0%nat) \/
  (exists c fields l,
     steps = VObj c fields /\ assoc "TestStep" fields = Some (VList l) /\
     k = List.length l) ->
  init_testStepResults st =
  (Return tt,
   mkState
     (<["testStepResults":=
          VObj Compound [("TestStepResult", VList (repeat TestStepResultType k))]]>
        (self st))
     (trace st ++ [(getService polarion "TestManagement", Return service);
                   (getTestSteps service testCaseURI, Return test_steps)])
     (world st)).
Proof.
  intros Hp Hs Hu Hts Hsteps Hk. unfold init_testStepResults.
  rewrite (bind_Return _ _ _ _ _ (self_get_Some _ _ _ Hp)).
  unfold bind at 1, perform at 1. rewrite Hs.
  unfold bind at 1, self_get at 1. cbn [self]. rewrite Hu.
  unfold bind at 1, perform at 1. cbn [self trace world]. rewrite Hts.
  rewrite Hsteps. unfold bind at 1, lift at 1.
  rewrite <- app_assoc. cbn [app].
  set (st1 := mkState (self st) _ (world st)).
  assert (Hn : (if negb (is_None steps)
                then lift (obind (obind (Return steps)
                                    (fun s => getattr s "TestStep")) len)
                else ret 0) st1 = (Return (Z.of_nat k), st1)).
  { destruct Hk as [[-> ->]|(c & fields & l & -> & Hl & ->)]; [reflexivity|].
    cbn [negb is_None obind getattr]. rewrite Hl. reflexivity. }
  rewrite (bind_Return _ _ _ _ _ Hn).
  assert (Hp1 : self st1 !! "_polarion" = Some polarion) by exact Hp.
  unfold polarion_make.
  rewrite (bind_Return _ _ _ _ _
             (bind_Return _ _ _ _ _ (self_get_Some _ _ _ Hp1))).
  unfold bind at 1, self_set at 1.
  rewrite Nat2Z.id. unfold ArrayOfTestStepResultType, st1. cbn [self trace world].
  apply (append_slots k 0%nat [] (self st) _ (world st) polarion Hp).
Qed.

(** X17: the lazy initialisation asks the service for the steps of the
    test case and leaves one empty slot per step, none when the test case
    has no steps ([steps] is null); it makes two calls and changes no other
    attribute. *)
Theorem init_allocates_one_slot_per_step
    st polarion service testCaseURI test_steps steps k :
  self st !! "_polarion" = Some polarion ->
  world st (trace st) (getService polarion "TestManagement") = Return service ->
  self st !! "testCaseURI" = Some testCaseURI ->
  world st (trace st ++ [(getService polarion "TestManagement", Return service)])
    (getTestSteps service testCaseURI) = Return test_steps ->
  getattr test_steps "steps" = Return steps ->
  (steps = VNone /\ k = 0%nat) \/
  (exists c fields l,
     steps = VObj c fields /\ assoc "TestStep" fields = Some (VList l) /\
     k = List.length l) ->
  init_testStepResults st =
  (Return tt,
   mkState
     (<["testStepResults":=
          VObj Compound [("TestStepResult", VList (repeat TestStepResultType k))]]>
        (self st))
     (trace st ++ [(getService polarion "TestManagement", Return service);
                   (getTestSteps service testCaseURI, Return test_steps)])
     (world st)).
Proof.
  exact (init_testStepResults_run st polarion service testCaseURI test_steps steps k).
Qed.

Lemma init_allocates_one_slot_per_step_witness :
  init_testStepResults steps_state =
  (Return tt,
   mkState
     (<["testStepResults":=
          VObj Compound [("TestStepResult", VList (repeat TestStepResultType 3))]]>
        (self steps_state))
     (trace steps_state ++
        [(getService sample_polarion "TestManagement", Return (VStr "TestManagement"));
         (getTestSteps (VStr "TestManagement") (VStr "{ns}Proj/TC-123"),
          Return (VObj Compound
                    [("steps", VObj Compound
                                 [("TestStep", VList [VStr "a"; VStr "b"; VStr "c"])])]))])
     (world steps_state)).
Proof.
  apply (init_allocates_one_slot_per_step steps_state sample_polarion
           (VStr "TestManagement") (VStr "{ns}Proj/TC-123")
           (VObj Compound
              [("steps", VObj Compound
                           [("TestStep", VList [VStr "a"; VStr "b"; VStr "c"])])])
           (VObj Compound [("TestStep", VList [VStr "a"; VStr "b"; VStr "c"])])
           3%nat).
  - vm_compute. reflexivity.
  - reflexivity.
  - vm_compute. reflexivity.
  - reflexivity.
  - reflexivity.
  - right. do 3 eexists. repeat split; reflexivity.
Defined.

(** X18: on a record whose step results were never populated and none of
    whose attributes hides [save], a step number at or past the number of
    steps of the test case sets nothing: [setTestStepResult] is the
    initialisation followed by the save, and the record it saves holds one
    empty slot per step. *)
Theorem setTestStepResult_lazy_past_end
    st polarion service testCaseURI test_steps steps k n result comment :
  self st !! "save" = None ->
  self st !! "testStepResults" = Some VNone ->
  self st !! "_polarion" = Some polarion ->
  world st (trace st) (getService polarion "TestManagement") = Return service ->
  self st !! "testCaseURI" = Some testCaseURI ->
  world st (trace st ++ [(getService polarion "TestManagement", Return service)])
    (getTestSteps service testCaseURI) = Return test_steps ->
  getattr test_steps "steps" = Return steps ->
  (steps = VNone /\ k = 0%nat) \/
  (exists c fields l,
     steps = VObj c fields /\ assoc "TestStep" fields = Some (VList l) /\
     k = List.length l) ->
  Z.of_nat k <= n ->
  setTestStepResult n result comment st =
  save (mkState
          (<["testStepResults":=
               VObj Compound [("TestStepResult", VList (repeat TestStepResultType k))]]>
             (self st))
          (trace st ++ [(getService polarion "TestManagement", Return service);
                        (getTestSteps service testCaseURI, Return test_steps)])
          (world st)).
Proof.
  intros Hsave Hr Hp Hs Hu Hts Hsteps Hk Hn. unfold setTestStepResult.
  rewrite (bind_Return _ _ _ _ _ (self_get_Some _ _ _ Hr)). cbn [is_None].
  rewrite (bind_Return _ _ _ _ _
             (init_testStepResults_run st polarion service testCaseURI
                test_steps steps k Hp Hs Hu Hts Hsteps Hk)).
  set (st1 := mkState _ _ (world st)).
  assert (Hr1 : self st1 !! "testStepResults"
                = Some (VObj Compound
                          [("TestStepResult", VList (repeat TestStepResultType k))]))
    by apply lookup_insert_eq.
  rewrite (bind_Return _ _ _ _ _ (self_get_Some _ _ _ Hr1)).
  cbn [getattr assoc String.eqb Ascii.eqb Bool.eqb].
  unfold bind at 1, lift at 1. cbn [len]. unfold bind at 1, lift at 1.
  rewrite repeat_length.
  destruct (Z.ltb_spec n (Z.of_nat k)); [lia|].
  unfold bind, ret. apply invoke_None.
  unfold st1. cbn [self]. now rewrite lookup_insert_ne.
Qed.

Lemma setTestStepResult_lazy_past_end_witness :
  setTestStepResult 3 BLOCKED VNone steps_state =
  save (mkState
          (<["testStepResults":=
               VObj Compound [("TestStepResult", VList (repeat TestStepResultType 3))]]>
             (self steps_state))
          (trace steps_state ++
             [(getService sample_polarion "TestManagement", Return (VStr "TestManagement"));
              (getTestSteps (VStr "TestManagement") (VStr "{ns}Proj/TC-123"),
               Return (VObj Compound
                         [("steps", VObj Compound
                                      [("TestStep", VList [VStr "a"; VStr "b"; VStr "c"])])]))])
          (world steps_state)).
Proof.
  apply (setTestStepResult_lazy_past_end steps_state sample_polarion
           (VStr "TestManagement") (VStr "{ns}Proj/TC-123")
           (VObj Compound
              [("steps", VObj Compound
                           [("TestStep", VList [VStr "a"; VStr "b"; VStr "c"])])])
           (VObj Compound [("TestStep", VList [VStr "a"; VStr "b"; VStr "c"])])
           3%nat 3 BLOCKED VNone).
  - vm_compute. reflexivity.
  - vm_compute. reflexivity.
  - vm_compute. reflexivity.
  - reflexivity.
  - vm_compute. reflexivity.
  - reflexivity.
  - reflexivity.
  - right. do 3 eexists. repeat split; reflexivity.
  - simpl. lia.
Defined.

(** ** Deleting and adding attachments *)

(** X19: [deleteAttachment] asks the service to delete the named
    attachment of the record at this index of this test run; when the
    service refuses, the exception reaches the caller, the record keeps
    every attribute, and no reload is started. *)
Theorem deleteAttachment_refused st polarion service test_run uri index file_name e :
  self st !! "_polarion" = Some polarion ->
  world st (trace st) (getService polarion "TestManagement") = Return service ->
  self st !! "_test_run" = Some test_run ->
  getattr test_run "uri" = Return uri ->
  self st !! "_index" = Some index ->
  world st (trace st ++ [(getService polarion "TestManagement", Return service)])
    (deleteAttachmentFromTestRecord service uri index file_name) = Raise e ->
  deleteAttachment file_name st =
  (Raise e,
   mkState (self st)
     (trace st ++
        [(getService polarion "TestManagement", Return service);
         (deleteAttachmentFromTestRecord service uri index file_name, Raise e)])
     (world st)).
Proof.
  intros Hp Hs Ht Hu Hi He. unfold deleteAttachment.
  rewrite (bind_Return _ _ _ _ _ (self_get_Some _ _ _ Hp)).
  unfold bind at 1, perform at 1. rewrite Hs.
  unfold bind at 1, self_get at 1. cbn [self]. rewrite Ht.
  rewrite Hu. unfold bind at 1, lift at 1.
  unfold bind at 1, self_get at 1. cbn [self]. rewrite Hi.
  unfold bind at 1, perform at 1. cbn [self trace world]. rewrite He.
  rewrite <- app_assoc. reflexivity.
Qed.

Lemma deleteAttachment_refused_witness :
  deleteAttachment "log.txt" refused_delete_state =
  (Raise (ExternalError "refused"),
   mkState (self refused_delete_state)
     (trace refused_delete_state ++
        [(getService sample_polarion "TestManagement", Return (VStr "TestManagement"));
         (deleteAttachmentFromTestRecord (VStr "TestManagement")
            (VStr "subterra:data-service:objects:/default/Proj${TestRun}run-1")
            (VInt 0) "log.txt",
          Raise (ExternalError "refused"))])
     (world refused_delete_state)).
Proof.
  apply (deleteAttachment_refused refused_delete_state sample_polarion
           (VStr "TestManagement") sample_test_run
           (VStr "subterra:data-service:objects:/default/Proj${TestRun}run-1")
           (VInt 0) "log.txt" (ExternalError "refused")).
  - vm_compute. reflexivity.
  - reflexivity.
  - vm_compute. reflexivity.
  - reflexivity.
  - vm_compute. reflexivity.
  - reflexivity.
Defined.

Lemma split_nonempty sep s : exists h t, split sep s = h :: t.
Proof.
  induction s as [|c s (h & t & IH)]; simpl; [eauto|].
  destruct (Ascii.eqb c sep); [eauto|]. rewrite IH. eauto.
Qed.

Lemma split_two sep a b :
  exists x y r, split sep (a +:+ String sep b) = x :: y :: r.
Proof.
  induction a as [|c a (x & y & r & IH)]; simpl.
  - rewrite Ascii.eqb_refl. destruct (split_nonempty sep b) as (h & t & ->). eauto.
  - destruct (Ascii.eqb c sep); rewrite IH; eauto.
Qed.

Lemma last_split sep a b d :
  has_char sep b = false ->
  List.last (split sep (a +:+ String sep b)) d = b.
Proof.
  intros Hb. induction a as [|c a IH].
  - simpl. rewrite Ascii.eqb_refl, (split_no_sep _ _ Hb). reflexivity.
  - destruct (split_two sep a b) as (x & y & r & E).
    change (String c a +:+ String sep b) with (String c (a +:+ String sep b)).
    cbn [split]. rewrite E in *.
    destruct (Ascii.eqb c sep); exact IH.
Qed.

(** The file name [addAttachment] uploads under is the last component of
    the path. *)
Lemma path_tail_join dir name :
  has_char "/" name = false -> path_tail (dir +:+ "/" +:+ name) = name.
Proof. intros H. unfold path_tail. now apply last_split. Qed.

(** X20: [addAttachment] opens the file, reads it, and uploads what it read
    under the last component of the path, for the record at this index of
    this test run.  When the service refuses the upload, the file is closed
    all the same, the exception reaches the caller, the record keeps every
    attribute and no reload is started. *)
Theorem addAttachment_upload_refused
    st polarion service file dir name title test_run uri index content closed e :
  has_char "/" name = false ->
  let file_path := dir +:+ "/" +:+ name in
  let gs := (getService polarion "TestManagement", Return service) in
  let opening := (open_ file_path "rb", Return file) in
  let reading := (file_read file, Return content) in
  let upload :=
    (addAttachmentToTestRecord service uri index name title content, Raise e) in
  self st !! "_polarion" = Some polarion ->
  world st (trace st) gs.1 = Return service ->
  world st (trace st ++ [gs]) opening.1 = Return file ->
  self st !! "_test_run" = Some test_run ->
  getattr test_run "uri" = Return uri ->
  self st !! "_index" = Some index ->
  world st (trace st ++ [gs; opening]) reading.1 = Return content ->
  world st (trace st ++ [gs; opening; reading]) upload.1 = Raise e ->
  world st (trace st ++ [gs; opening; reading; upload]) (file_close file)
    = Return closed ->
  addAttachment file_path title st =
  (Raise e,
   mkState (self st)
     (trace st ++ [gs; opening; reading; upload; (file_close file, Return closed)])
     (world st)).
Proof.
  intros Hname file_path gs opening reading upload Hp Hs Ho Ht Hu Hi Hr He Hc.
  unfold addAttachment.
  rewrite (bind_Return _ _ _ _ _ (self_get_Some _ _ _ Hp)).
  unfold bind at 1, perform at 1.
  change (world st (trace st) (getService polarion "TestManagement") = Return service)
    in Hs.
  rewrite Hs. fold gs.
  assert (Hpt : path_tail file_path = name) by now apply path_tail_join.
  cbv zeta. rewrite Hpt.
  set (st1 := mkState (self st) (trace st ++ [gs]) (world st)).
  set (body := fun file_content : value =>
                 test_run0 <~ self_get "_test_run" ;;
                 uri0 <~ lift (getattr test_run0 "uri") ;;
                 index0 <~ self_get "_index" ;;
                 content0 <~ perform (file_read file_content) ;;
                 perform (addAttachmentToTestRecord service uri0 index0 name title content0) ;;;
                 ret tt).
  assert (Hb : body file (mkState (self st1) (trace st1 ++ [opening]) (world st1))
               = (Raise e,
                  mkState (self st) (trace st ++ [gs; opening; reading; upload])
                    (world st))).
  { unfold body.
    unfold bind at 1, self_get at 1. cbn [self st1]. rewrite Ht.
    rewrite Hu. unfold bind at 1, lift at 1.
    unfold bind at 1, self_get at 1. cbn [self]. rewrite Hi.
    unfold bind at 1, perform at 1. cbn [self trace world st1].
    rewrite <- !app_assoc. cbn [app].
    change (world st (trace st ++ [gs; opening]) (file_read file) = Return content)
      in Hr.
    match goal with
    | |- context [world st ?t (file_read file)] =>
        replace (world st t (file_read file)) with (@Return value content)
          by (symmetry; exact Hr)
    end.
    fold reading.
    unfold bind at 1, perform at 1. cbn [self trace world].
    rewrite <- !app_assoc. cbn [app].
    change (world st (trace st ++ [gs; opening; reading])
              (addAttachmentToTestRecord service uri index name title content)
            = Raise e) in He.
    match goal with
    | |- context [world st ?t (addAttachmentToTestRecord ?a ?b ?c ?d ?f ?g)] =>
        replace (world st t (addAttachmentToTestRecord a b c d f g))
          with (@Raise value e) by (symmetry; exact He)
    end.
    reflexivity. }
  assert (Hw : with_open file_path "rb" body st1
               = (Raise e,
                  mkState (self st)
                    (trace st ++ [gs; opening; reading; upload;
                                  (file_close file, Return closed)])
                    (world st))).
  { rewrite (with_open_run file_path "rb" body st1 file _ _ closed Ho Hb Hc).
    cbn [self trace world]. rewrite <- !app_assoc. reflexivity. }
  change (with_open file_path "rb" _) with (with_open file_path "rb" body).
  now rewrite (bind_Raise _ _ _ _ _ Hw).
Qed.

Lemma addAttachment_upload_refused_witness :
  addAttachment ("/var/reports" +:+ "/" +:+ "run.log") "Run log" refused_upload_state =
  (Raise (ExternalError "refused"),
   mkState (self refused_upload_state)
     (trace refused_upload_state ++
        [(getService sample_polarion "TestManagement", Return (VStr "TestManagement"));
         (open_ ("/var/reports" +:+ "/" +:+ "run.log") "rb",
          Return (VStr "/var/reports/run.log"));
         (file_read (VStr "/var/reports/run.log"), Return (VBytes "file content"));
         (addAttachmentToTestRecord (VStr "TestManagement")
            (VStr "subterra:data-service:objects:/default/Proj${TestRun}run-1")
            (VInt 0) "run.log" "Run log" (VBytes "file content"),
          Raise (ExternalError "refused"));
         (file_close (VStr "/var/reports/run.log"), Return VNone)])
     (world refused_upload_state)).
Proof.
  apply (addAttachment_upload_refused refused_upload_state sample_polarion
           (VStr "TestManagement") (VStr "/var/reports/run.log")
           "/var/reports" "run.log" "Run log" sample_test_run
           (VStr "subterra:data-service:objects:/default/Proj${TestRun}run-1")
           (VInt 0) (VBytes "file content") VNone (ExternalError "refused")).
  - reflexivity.
  - vm_compute. reflexivity.
  - reflexivity.
  - reflexivity.
  - vm_compute. reflexivity.
  - reflexivity.
  - vm_compute. reflexivity.
  - reflexivity.
  - reflexivity.
  - reflexivity.
Defined.

(** ** The calls of a save that returns *)

(** X21: a [save] that returns has made exactly four calls, in this order:
    the lookup of the service, the one write, the lookup of the service
    again, and the one read of the records -- all answered without an
    exception. *)
Theorem save_makes_four_calls st st2 :
  save st = (Return tt, st2) ->
  exists polarion service uri written polarion' service' uri' testcase records,
    trace st2 =
    trace st ++
      [(getService polarion "TestManagement", Return service);
       (executeTest service uri (public_items (self st)), Return written);
       (getService polarion' "TestManagement", Return service');
       (getTestCaseRecords service' uri' testcase, Return records)].
Proof.
  unfold save. intros H.
  apply bind_inv in H as (new_item & s0 & H0 & H). injection H0 as <- <-.
  apply bind_inv in H as (polarion & s1 & H1 & H).
  apply self_get_inv in H1 as [-> _].
  apply bind_inv in H as (service & s2 & H2 & H). apply perform_inv in H2.
  apply bind_inv in H as (test_run & s3 & H3 & H).
  apply self_get_inv in H3 as [-> _].
  apply bind_inv in H as (uri & s4 & H4 & H). apply lift_inv in H4 as [-> _].
  apply bind_inv in H as (written & s5 & H5 & H). apply perform_inv in H5.
  apply invoke_inv in H as [_ H].
  unfold _reloadFromPolarion in H.
  apply bind_inv in H as (polarion' & s6 & H6 & H).
  apply self_get_inv in H6 as [-> _].
  apply bind_inv in H as (service' & s7 & H7 & H). apply perform_inv in H7.
  apply bind_inv in H as (test_run' & s8 & H8 & H).
  apply self_get_inv in H8 as [-> _].
  apply bind_inv in H as (uri' & s9 & H9 & H). apply lift_inv in H9 as [-> _].
  apply bind_inv in H as (testcase & s10 & H10 & H).
  apply self_get_inv in H10 as [-> _].
  apply bind_inv in H as (records & s11 & H11 & H). apply perform_inv in H11.
  apply bind_inv in H as (record & s12 & H12 & H). apply lift_inv in H12 as [-> _].
  apply bind_inv in H as ([] & s13 & H13 & H).
  unfold self_set in H13. injection H13 as <-.
  apply invoke_inv in H as [_ H].
  pose proof (build_trace (mkState (<["_polarion_record":=record]> (self s11))
                             (trace s11) (world s11))) as Htr.
  rewrite H in Htr. simpl in Htr.
  exists polarion, service, uri, written, polarion', service', uri', testcase, records.
  rewrite Htr, H11. cbn [trace]. rewrite H7. cbn [trace self world].
  rewrite H5. cbn [trace self world]. rewrite H2. cbn [trace self world].
  rewrite <- !app_assoc. reflexivity.
Qed.

Lemma save_makes_four_calls_witness :
  exists polarion service uri written polarion' service' uri' testcase records,
    trace (save sample_state).2 =
    trace sample_state ++
      [(getService polarion "TestManagement", Return service);
       (executeTest service uri (public_items (self sample_state)), Return written);
       (getService polarion' "TestManagement", Return service');
       (getTestCaseRecords service' uri' testcase, Return records)].
Proof.
  apply (save_makes_four_calls sample_state (save sample_state).2).
  vm_compute. reflexivity.
Defined.

(** ** The two sides of the step bounds *)

Lemma setTestStepResult_past_end_witness :
  setTestStepResult 2 PASSED (VStr "late") two_slots_state = save two_slots_state.
Proof.
  apply (setTestStepResult_past_end two_slots_state two_slots
           (VList [TestStepResultType; TestStepResultType]) 2 2 PASSED (VStr "late")).
  - vm_compute. reflexivity.
  - reflexivity.
  - reflexivity.
  - reflexivity.
  - lia.
  - vm_compute. reflexivity.
Defined.

Lemma setTestStepResult_below_start_witness :
  setTestStepResult (-7) FAILED VNone two_slots_state
    = (Raise IndexError, two_slots_state).
Proof.
  apply (setTestStepResult_below_start two_slots_state two_slots
           [TestStepResultType; TestStepResultType] sample_polarion (-7) FAILED VNone).
  - vm_compute. reflexivity.
  - reflexivity.
  - reflexivity.
  - vm_compute. reflexivity.
  - simpl. lia.
Defined.
